(** * Log-shipper setup workflow of flyctl (package [logs]) and its [gql] helpers

    A shallow embedding of [runSetup], [ProvisionAutoShipper],
    [EnsureShipperApp], [EnsureShipperMachine], [SetNatsTokenSecret],
    [LoggerAppName], [LoggerAddOnName], [ToAppCompact], [IsErrorNotFound] and
    the tables [providers] and [AddOnTypes].

    The workflow talks to remote collaborators (the GraphQL client, the flaps
    client, the deployment engine, the prompt).  They are modelled as oracles
    that answer a request given the history of calls made so far, and every
    call is appended to a trace, so that "issues no create mutation" or
    "is invoked" are statements about the trace of a run. *)

From Stdlib Require Import ZArith List Ascii.
From stdpp Require Import gmap strings list.

Local Open Scope Z_scope.

(* ===================================================================== *)
(** ** Go errors *)
(* ===================================================================== *)

(** A [*gqlerror.Error]; the workflow only prints it. *)
Definition gqlerror_Error := string.

(** A non-nil Go [error] value, by what the workflow can observe of it: whether
    its dynamic type is [gqlerror.List], and what [errors.Unwrap] returns.
    A nil [error] is [None : option error].  An unwrap chain is finite, so
    the loop of [ProvisionAutoShipper] over it ends. *)
Inductive error : Type :=
| gqlerror_List (errs : list gqlerror_Error)
| errorString (msg : string)
| wrapError (msg : string) (inner : error).

(** [errors.Unwrap]: the wrapped error of a wrapper, nil for the rest. *)
Definition errors_Unwrap (err : error) : option error :=
  match err with
  | wrapError _ inner => Some inner
  | _ => None
  end.

(** [_, ok := err.(gqlerror.List)] *)
Definition is_gqlerror_List (err : error) : bool :=
  match err with
  | gqlerror_List _ => true
  | _ => false
  end.

(** Some error on the unwrap chain of [err] (itself included) is a
    [gqlerror.List]. *)
Fixpoint chain_has_List (err : error) : bool :=
  match err with
  | gqlerror_List _ => true
  | errorString _ => false
  | wrapError _ inner => chain_has_List inner
  end.

(** The elements of the first [gqlerror.List] on the unwrap chain of [err]
    (none when the chain has no such error). *)
Fixpoint chain_first_List (err : error) : list gqlerror_Error :=
  match err with
  | gqlerror_List errs => errs
  | errorString _ => []
  | wrapError _ inner => chain_first_List inner
  end.

(* ===================================================================== *)
(** ** Data of package [gql] and [api] that the workflow reads or builds *)
(* ===================================================================== *)

Record AppDataOrganization := {
  AppDataOrganization_Id : string;
  AppDataOrganization_Slug : string;
  AppDataOrganization_RawSlug : string;
}.

Record AppData := {
  AppData_Id : string;
  AppData_Name : string;
  AppData_Organization : AppDataOrganization;
}.

Record OrganizationBasic := {
  OrganizationBasic_Slug : string;
}.

Record AppCompact := {
  AppCompact_Name : string;
  AppCompact_Organization : OrganizationBasic;
}.

(** [CreateAddOnInput]; [AddOnType] is declared in generated code outside the
    sources at hand and stays a parameter. *)
Record CreateAddOnInput (AddOnType : Type) := {
  CreateAddOnInput_OrganizationId : string;
  CreateAddOnInput_Name : string;
  CreateAddOnInput_AppId : string;
  CreateAddOnInput_Type : AddOnType;
}.
Arguments Build_CreateAddOnInput {AddOnType}.
Arguments CreateAddOnInput_OrganizationId {AddOnType}.
Arguments CreateAddOnInput_Name {AddOnType}.
Arguments CreateAddOnInput_AppId {AddOnType}.
Arguments CreateAddOnInput_Type {AddOnType}.

(** The fields of [CreateAppInput] that [EnsureShipperApp] sets. *)
Record CreateAppInput := {
  CreateAppInput_Machines : bool;
  CreateAppInput_OrganizationId : string;
  CreateAppInput_AppRoleId : string;
  CreateAppInput_Name : string;
}.

(** [input.Machines = v] and the like. *)
Definition set_Machines (v : bool) (input : CreateAppInput) : CreateAppInput :=
  {| CreateAppInput_Machines := v;
     CreateAppInput_OrganizationId := CreateAppInput_OrganizationId input;
     CreateAppInput_AppRoleId := CreateAppInput_AppRoleId input;
     CreateAppInput_Name := CreateAppInput_Name input |}.

Definition set_OrganizationId (v : string) (input : CreateAppInput)
  : CreateAppInput :=
  {| CreateAppInput_Machines := CreateAppInput_Machines input;
     CreateAppInput_OrganizationId := v;
     CreateAppInput_AppRoleId := CreateAppInput_AppRoleId input;
     CreateAppInput_Name := CreateAppInput_Name input |}.

Definition set_AppRoleId (v : string) (input : CreateAppInput)
  : CreateAppInput :=
  {| CreateAppInput_Machines := CreateAppInput_Machines input;
     CreateAppInput_OrganizationId := CreateAppInput_OrganizationId input;
     CreateAppInput_AppRoleId := v;
     CreateAppInput_Name := CreateAppInput_Name input |}.

Definition set_Name (v : string) (input : CreateAppInput) : CreateAppInput :=
  {| CreateAppInput_Machines := CreateAppInput_Machines input;
     CreateAppInput_OrganizationId := CreateAppInput_OrganizationId input;
     CreateAppInput_AppRoleId := CreateAppInput_AppRoleId input;
     CreateAppInput_Name := v |}.

Record MachineGuest := {
  MachineGuest_CPUKind : string;
  MachineGuest_CPUs : Z;
  MachineGuest_MemoryMB : Z;
}.

Record MachineConfig := {
  MachineConfig_Guest : MachineGuest;
  MachineConfig_Image : string;
  MachineConfig_Metadata : gmap string string;
}.

Record LaunchMachineInput := {
  LaunchMachineInput_Name : string;
  LaunchMachineInput_Config : MachineConfig;
  LaunchMachineInput_Region : string;
}.

(** An [*api.Machine] of a listing; the workflow only counts them. *)
Record Machine := {
  Machine_ID : string;
}.

Record SecretInput := {
  SecretInput_Key : string;
  SecretInput_Value : string;
}.

Record SetSecretsInput := {
  SetSecretsInput_AppId : string;
  SetSecretsInput_Secrets : list SecretInput;
}.

Record MachineDeploymentArgs := {
  MachineDeploymentArgs_AppCompact : AppCompact;
  MachineDeploymentArgs_RestartOnly : bool;
  MachineDeploymentArgs_SkipHealthChecks : bool;
}.

(** Responses of the generated GraphQL functions, by the paths the workflow
    reads.  The generated functions hand back a response value together with
    the error, so a response is there also when the error is not nil. *)
Record GetAppResponse := {
  GetAppResponse_App_AppData : AppData;
}.

Record GetAddOnResponse := {
  GetAddOnResponse_AddOn_Token : string;
  GetAddOnResponse_AddOn_Organization_Slug : string;
}.

Record CreateAddOnResponse := {
  CreateAddOnResponse_CreateAddOn_AddOn_Token : string;
}.

Record GetAppsByRoleResponse := {
  GetAppsByRoleResponse_Apps_Nodes : list AppData;
}.

Record CreateAppResponse := {
  CreateAppResponse_CreateApp_App_AppData : AppData;
}.

Record GetNearestRegionResponse := {
  GetNearestRegionResponse_NearestRegion_Code : string;
}.

Record CreateLimitedAccessTokenResponse := {
  CreateLimitedAccessTokenResponse_Token : string;
}.

(** [Provider] of package [logs] (the field name [RequriedVars] is the
    source's). *)
Record Provider := {
  Provider_Slug : string;
  Provider_Name : string;
  Provider_Auto : bool;
  Provider_RequriedVars : list string;
  Provider_OptionalVars : list string;
}.

(** What the command's [context.Context] carries besides the clients. *)
Record context_Context := {
  appconfig_NameFromContext : string;
}.

(* ===================================================================== *)
(** ** Traces *)
(* ===================================================================== *)

(** Lines written to the terminal. *)
Inductive Output : Type :=
| PrintErrorType (err : option error)
| PrintGqlError (e : gqlerror_Error)
| PrintAlreadyProvisioned (slug : string)
| PrintLaunched (name region : string).

(** One entry per call that leaves the workflow. *)
Inductive Event (AddOnType : Type) : Type :=
| EvGetApp (name : string)
| EvSelect (message help : string) (options : list string)
| EvGetAddOn (name : string)
| EvCreateAddOn (input : CreateAddOnInput AddOnType)
| EvGetAppsByRole (role organizationId : string)
| EvCreateApp (input : CreateAppInput)
| EvFlapsNew (app : AppCompact)
| EvFlapsList (client : AppCompact) (state : string)
| EvGetNearestRegion
| EvFlapsLaunch (client : AppCompact) (input : LaunchMachineInput)
| EvCreateLimitedAccessToken
    (name organizationId profile profileParams expiry : string)
| EvSetSecrets (input : SetSecretsInput)
| EvNewMachineDeployment (args : MachineDeploymentArgs)
| EvDeployMachinesApp (md : MachineDeploymentArgs)
| EvOutput (o : Output).

Arguments EvGetApp {AddOnType}.
Arguments EvSelect {AddOnType}.
Arguments EvGetAddOn {AddOnType}.
Arguments EvCreateAddOn {AddOnType}.
Arguments EvGetAppsByRole {AddOnType}.
Arguments EvCreateApp {AddOnType}.
Arguments EvFlapsNew {AddOnType}.
Arguments EvFlapsList {AddOnType}.
Arguments EvGetNearestRegion {AddOnType}.
Arguments EvFlapsLaunch {AddOnType}.
Arguments EvCreateLimitedAccessToken {AddOnType}.
Arguments EvSetSecrets {AddOnType}.
Arguments EvNewMachineDeployment {AddOnType}.
Arguments EvDeployMachinesApp {AddOnType}.
Arguments EvOutput {AddOnType}.

(** Calls in the order they were made. *)
Definition Trace (AddOnType : Type) : Type := list (Event AddOnType).

Definition is_CreateAddOn {T : Type} (e : Event T) : bool :=
  match e with EvCreateAddOn _ => true | _ => false end.

Definition is_CreateApp {T : Type} (e : Event T) : bool :=
  match e with EvCreateApp _ => true | _ => false end.

Definition is_FlapsLaunch {T : Type} (e : Event T) : bool :=
  match e with EvFlapsLaunch _ _ => true | _ => false end.

Definition is_GetNearestRegion {T : Type} (e : Event T) : bool :=
  match e with EvGetNearestRegion => true | _ => false end.

Definition is_CreateLimitedAccessToken {T : Type} (e : Event T) : bool :=
  match e with EvCreateLimitedAccessToken _ _ _ _ _ => true | _ => false end.

(* ===================================================================== *)
(** ** The surroundings of the workflow *)
(* ===================================================================== *)

(** Declarations of this repository that the sources use and that live
    outside them: the [AddOnType] constants and its zero value (what a Go map
    yields for an absent key), the metadata constants of package [api], and
    [gql.DefaultCreateAppInput()]. *)
Record Decls (AddOnType : Type) := {
  AddOnType_zero : AddOnType;
  AddOnTypeLogtail : AddOnType;
  AddOnTypeUpstashRedis : AddOnType;
  MachineConfigMetadataKeyFlyPlatformVersion : string;
  MachineFlyPlatformVersion2 : string;
  MachineConfigMetadataKeyFlyManagedPostgres : string;
  DefaultCreateAppInput : CreateAppInput;
}.
Arguments AddOnType_zero {AddOnType}.
Arguments AddOnTypeLogtail {AddOnType}.
Arguments AddOnTypeUpstashRedis {AddOnType}.
Arguments MachineConfigMetadataKeyFlyPlatformVersion {AddOnType}.
Arguments MachineFlyPlatformVersion2 {AddOnType}.
Arguments MachineConfigMetadataKeyFlyManagedPostgres {AddOnType}.
Arguments DefaultCreateAppInput {AddOnType}.

(** The remote collaborators.  Each answers a request given the calls made
    before it, so an answer may depend on what the run did earlier (a created
    app may show up in a later listing).  A flaps client is identified by the
    app it was made for, a machine deployment by its arguments. *)
Record Remote (AddOnType : Type) := {
  gql_GetApp : Trace AddOnType -> string -> GetAppResponse * option error;
  prompt_Select :
    Trace AddOnType -> string -> string -> list string -> Z * option error;
  gql_GetAddOn : Trace AddOnType -> string -> GetAddOnResponse * option error;
  gql_CreateAddOn :
    Trace AddOnType -> CreateAddOnInput AddOnType ->
    CreateAddOnResponse * option error;
  gql_GetAppsByRole :
    Trace AddOnType -> string -> string -> GetAppsByRoleResponse * option error;
  gql_CreateApp :
    Trace AddOnType -> CreateAppInput -> CreateAppResponse * option error;
  flaps_New : Trace AddOnType -> AppCompact -> option error;
  flaps_List :
    Trace AddOnType -> AppCompact -> string -> list Machine * option error;
  gql_GetNearestRegion :
    Trace AddOnType -> GetNearestRegionResponse * option error;
  flaps_Launch :
    Trace AddOnType -> AppCompact -> LaunchMachineInput ->
    option Machine * option error;
  gql_CreateLimitedAccessToken :
    Trace AddOnType -> string -> string -> string -> string -> string ->
    CreateLimitedAccessTokenResponse * option error;
  gql_SetSecrets : Trace AddOnType -> SetSecretsInput -> option error;
  deploy_NewMachineDeployment :
    Trace AddOnType -> MachineDeploymentArgs -> option error;
  deploy_DeployMachinesApp :
    Trace AddOnType -> MachineDeploymentArgs -> option error;
}.
Arguments gql_GetApp {AddOnType}.
Arguments prompt_Select {AddOnType}.
Arguments gql_GetAddOn {AddOnType}.
Arguments gql_CreateAddOn {AddOnType}.
Arguments gql_GetAppsByRole {AddOnType}.
Arguments gql_CreateApp {AddOnType}.
Arguments flaps_New {AddOnType}.
Arguments flaps_List {AddOnType}.
Arguments gql_GetNearestRegion {AddOnType}.
Arguments flaps_Launch {AddOnType}.
Arguments gql_CreateLimitedAccessToken {AddOnType}.
Arguments gql_SetSecrets {AddOnType}.
Arguments deploy_NewMachineDeployment {AddOnType}.
Arguments deploy_DeployMachinesApp {AddOnType}.

(* ===================================================================== *)
(** ** The monad of a run *)
(* ===================================================================== *)

(** A Go call either returns or panics (a nil pointer is dereferenced, an
    index is out of range). *)
Inductive Outcome (A : Type) : Type :=
| Returns (a : A)
| Panics.
Arguments Returns {A}.
Arguments Panics {A}.

(** A computation extends the trace and returns or panics. *)
Definition M (T A : Type) : Type := Trace T -> Trace T * Outcome A.

Definition ret {T A : Type} (a : A) : M T A := fun t => (t, Returns a).

Definition bind {T A B : Type} (c : M T A) (k : A -> M T B) : M T B :=
  fun t =>
    match c t with
    | (t', Returns a) => k a t'
    | (t', Panics) => (t', Panics)
    end.

Definition panic {T A : Type} : M T A := fun t => (t, Panics).

(** A call to a collaborator: it is answered from the history, and logged. *)
Definition call {T A : Type} (ev : Event T) (answer : Trace T -> A) : M T A :=
  fun t => (t ++ [ev], Returns (answer t)).

Definition print {T : Type} (o : Output) : M T unit :=
  fun t => (t ++ [EvOutput o], Returns tt).

Notation "x <- c ;; k" := (bind c (fun x => k))
  (at level 20, c at level 99, k at level 200, only parsing).
Notation "' pat <- c ;; k" := (bind c (fun x => match x with pat => k end))
  (at level 20, pat pattern, c at level 99, k at level 200, only parsing).
Notation "c ;;; k" := (bind c (fun _ => k))
  (at level 100, k at level 200, right associativity, only parsing).

(** [for _, x := range xs { f(x) }] *)
Fixpoint for_range {T A : Type} (xs : list A) (f : A -> M T unit) : M T unit :=
  match xs with
  | [] => ret tt
  | x :: xs' => f x ;;; for_range xs' f
  end.

(** [xs[i]] on a slice: out of range, Go panics. *)
Definition index {T A : Type} (xs : list A) (i : Z) : M T A :=
  if 0 <=? i then
    match xs !! Z.to_nat i with
    | Some x => ret x
    | None => panic
    end
  else panic.

(** The events that a run started on [t] and ended on [t'] added. *)
Definition new_events {T : Type} (t t' : Trace T) : Trace T :=
  drop (length t) t'.

(** None of the events of [evs] satisfies [p]. *)
Definition none_issued {T : Type} (p : Event T -> bool) (evs : Trace T) : bool :=
  forallb (fun e => negb (p e)) evs.

(* ===================================================================== *)
(** ** Package [gql]: [ToAppCompact], and package [logs]: the tables *)
(* ===================================================================== *)

(** [ToAppCompact] keeps the two fields flaps needs. *)
Definition ToAppCompact (app : AppData) : AppCompact :=
  {| AppCompact_Name := AppData_Name app;
     AppCompact_Organization :=
       {| OrganizationBasic_Slug :=
            AppDataOrganization_Slug (AppData_Organization app) |} |}.

Definition providers : list Provider :=
  [ {| Provider_Slug := "aws_s3"; Provider_Name := "AWS S3";
       Provider_Auto := false;
       Provider_RequriedVars :=
         ["AWS_BUCKET"; "AWS_REGION"; "AWS_ACCESS_KEY_ID";
          "AWS_SECRET_ACCESS_KEY"];
       Provider_OptionalVars := ["S3_ENDPOINT"] |};
    {| Provider_Slug := "axiom"; Provider_Name := "Axiom";
       Provider_Auto := false;
       Provider_RequriedVars := ["AXIOM_TOKEN"; "AXIOM_DATASET"];
       Provider_OptionalVars := [] |};
    {| Provider_Slug := "datadog"; Provider_Name := "Datadog";
       Provider_Auto := false;
       Provider_RequriedVars := ["DATADOG_API_KEY"];
       Provider_OptionalVars := ["DATADOG_SITE"] |};
    {| Provider_Slug := "erasearch"; Provider_Name := "Erasearch";
       Provider_Auto := false;
       Provider_RequriedVars :=
         ["ERASEARCH_URL"; "ERASEARCH_INDEX"; "ERASEARCH_AUTH"];
       Provider_OptionalVars := [] |};
    {| Provider_Slug := "honeycomb"; Provider_Name := "Honeycomb";
       Provider_Auto := false;
       Provider_RequriedVars := ["HONEYCOMB_API_KEY"; "HONEYCOMB_DATASET"];
       Provider_OptionalVars := [] |};
    {| Provider_Slug := "http"; Provider_Name := "HTTP";
       Provider_Auto := false;
       Provider_RequriedVars := ["HTTP_URL"; "HTTP_TOKEN"];
       Provider_OptionalVars := [] |};
    {| Provider_Slug := "humio"; Provider_Name := "Humio";
       Provider_Auto := false;
       Provider_RequriedVars := ["HUMIO_TOKEN"];
       Provider_OptionalVars := [] |};
    {| Provider_Slug := "mezmo"; Provider_Name := "Mezmo";
       Provider_Auto := false;
       Provider_RequriedVars := ["MEZMO_API_KEY"];
       Provider_OptionalVars := [] |};
    {| Provider_Slug := "logflare"; Provider_Name := "Logflare";
       Provider_Auto := false;
       Provider_RequriedVars := ["LOGFLARE_API_KEY"; "LOGFLARE_SOURCE_TOKEN"];
       Provider_OptionalVars := [] |};
    {| Provider_Slug := "logtail"; Provider_Name := "Logtail";
       Provider_Auto := true;
       Provider_RequriedVars := [];
       Provider_OptionalVars := [] |};
    {| Provider_Slug := "loki"; Provider_Name := "Loki";
       Provider_Auto := false;
       Provider_RequriedVars := ["LOKI_URL"; "LOKI_USERNAME"; "LOKI_PASSWORD"];
       Provider_OptionalVars := [] |};
    {| Provider_Slug := "new_relic"; Provider_Name := "New Relic";
       Provider_Auto := false;
       Provider_RequriedVars := ["NEW_RELIC_REGION"; "NEW_RELIC_ACCOUNT_ID"];
       Provider_OptionalVars :=
         ["NEW_RELIC_LICENSE_KEY"; "NEW_RELIC_INSERT_KEY"] |};
    {| Provider_Slug := "papertrail"; Provider_Name := "Papertrail";
       Provider_Auto := false;
       Provider_RequriedVars := ["PAPERTRAIL_ENDPOINT"];
       Provider_OptionalVars := ["PAPERTRAIL_ENCODING_CODEC"] |};
    {| Provider_Slug := "sematext"; Provider_Name := "Sematext";
       Provider_Auto := false;
       Provider_RequriedVars := ["SEMATEXT_REGION"; "SEMATEXT_TOKEN"];
       Provider_OptionalVars := [] |};
    {| Provider_Slug := "uptrace"; Provider_Name := "Uptrace";
       Provider_Auto := false;
       Provider_RequriedVars := ["UPTRACE_API_KEY"; "UPTRACE_PROJECT"];
       Provider_OptionalVars :=
         ["UPTRACE_SINK_INPUT"; "UPTRACE_SINK_ENCODING"] |} ].

Definition LoggerAppName (prefix : string) : string :=
  prefix +:+ "-auto-log-shipper".

Definition LoggerAddOnName (appName provider : string) : string :=
  appName +:+ "-" +:+ provider.

(** How the [for err != nil] loop of [ProvisionAutoShipper] is left: by the
    [return] in its body, or to the statements after it (by [break] or because
    [err] became nil) with the [token] and [err] of that moment. *)
Inductive ForExit : Type :=
| ForReturn (token : string) (err : option error)
| ForDone (token : string) (err : option error).

Section Workflow.

Variable AddOnType : Type.
Variable d : Decls AddOnType.
Variable r : Remote AddOnType.

(** [var AddOnTypes = map[string]AddOnType{...}] *)
Definition AddOnTypes : gmap string AddOnType :=
  {[ "logtail" := AddOnTypeLogtail d;
     "upstash_redis" := AddOnTypeUpstashRedis d ]}.

(** [AddOnTypes[provider]]: a Go map yields the zero value for an absent
    key. *)
Definition AddOnTypes_at (provider : string) : AddOnType :=
  default (AddOnType_zero d) (AddOnTypes !! provider).

(** The body of [for err != nil { ... err = errors.Unwrap(err) }], entered
    with a non-nil [err]; it recurses on the error that [errors.Unwrap]
    returns (see [ProvisionAutoShipper_for_eq]). *)
Fixpoint ProvisionAutoShipper_for (targetApp : AppData) (provider : string)
    (addOnName : string) (token : string) (err : error) : M AddOnType ForExit :=
  match err with
  | gqlerror_List errList =>
      for_range errList (fun gqlErr => print (PrintGqlError gqlErr)) ;;;
      let input :=
        {| CreateAddOnInput_OrganizationId :=
             AppDataOrganization_Id (AppData_Organization targetApp);
           CreateAddOnInput_Name := addOnName;
           CreateAddOnInput_AppId := AppData_Id targetApp;
           CreateAddOnInput_Type := AddOnTypes_at provider |} in
      '(createAddOnResponse, err') <-
        call (EvCreateAddOn input) (fun t => gql_CreateAddOn r t input) ;;
      match err' with
      | Some e => ret (ForReturn "" (Some e))
      | None =>
          let token :=
            CreateAddOnResponse_CreateAddOn_AddOn_Token createAddOnResponse in
          ret (ForDone token (Some err))
      end
  | errorString _ => ret (ForDone token None)
  | wrapError _ inner =>
      ProvisionAutoShipper_for targetApp provider addOnName token inner
  end.

Definition ProvisionAutoShipper (targetApp : AppData) (provider : string)
  : M AddOnType (string * option error) :=
  let addOnName := AppData_Name targetApp +:+ "-log-shipper" in
  '(getAddOnResponse, err) <-
    call (EvGetAddOn addOnName) (fun t => gql_GetAddOn r t addOnName) ;;
  print (PrintErrorType err) ;;;
  let token := "" in
  exit <-
    match err with
    | None => ret (ForDone token None)
    | Some e => ProvisionAutoShipper_for targetApp provider addOnName token e
    end ;;
  match exit with
  | ForReturn token err => ret (token, err)
  | ForDone token err =>
      token <-
        match err with
        | None =>
            print (PrintAlreadyProvisioned
                     (GetAddOnResponse_AddOn_Organization_Slug
                        getAddOnResponse)) ;;;
            ret (GetAddOnResponse_AddOn_Token getAddOnResponse)
        | Some _ => ret token
        end ;;
      ret (token, None)
  end.

Definition EnsureShipperMachine (shipperApp : option AppData)
  : M AddOnType (option error) :=
  match shipperApp with
  | None => panic
  | Some app =>
      let appCompact := ToAppCompact app in
      err <- call (EvFlapsNew appCompact) (fun t => flaps_New r t appCompact) ;;
      match err with
      | Some e => ret (Some e)
      | None =>
      let flapsClient := appCompact in
      '(machines, err) <-
        call (EvFlapsList flapsClient "")
             (fun t => flaps_List r t flapsClient "") ;;
      match err with
      | Some e => ret (Some e)
      | None =>
      if Nat.ltb 0 (length machines) then ret None
      else
      let machineConf :=
        {| MachineConfig_Guest :=
             {| MachineGuest_CPUKind := "shared";
                MachineGuest_CPUs := 1;
                MachineGuest_MemoryMB := 256 |};
           MachineConfig_Image := "flyio/log-shipper:auto-a14aa63";
           MachineConfig_Metadata :=
             {[ MachineConfigMetadataKeyFlyPlatformVersion d :=
                  MachineFlyPlatformVersion2 d;
                MachineConfigMetadataKeyFlyManagedPostgres d := "true";
                "managed-by-fly-deploy" := "true" ]} |} in
      '(regionResponse, err) <-
        call EvGetNearestRegion (fun t => gql_GetNearestRegion r t) ;;
      match err with
      | Some e => ret (Some e)
      | None =>
      let launchInput :=
        {| LaunchMachineInput_Name := "log-shipper";
           LaunchMachineInput_Config := machineConf;
           LaunchMachineInput_Region :=
             GetNearestRegionResponse_NearestRegion_Code regionResponse |} in
      '(_, err) <-
        call (EvFlapsLaunch flapsClient launchInput)
             (fun t => flaps_Launch r t flapsClient launchInput) ;;
      match err with
      | Some e => ret (Some e)
      | None =>
      print (PrintLaunched (AppData_Name app)
               (LaunchMachineInput_Region launchInput)) ;;;
      ret None
      end end end end
  end.

Definition EnsureShipperApp (targetOrg : AppDataOrganization)
  : M AddOnType (option AppData * option error) :=
  '(appsResult, err) <-
    call (EvGetAppsByRole "log-shipper" (AppDataOrganization_Id targetOrg))
         (fun t => gql_GetAppsByRole r t "log-shipper"
                     (AppDataOrganization_Id targetOrg)) ;;
  match err with
  | Some e => ret (None, Some e)
  | None =>
  if Nat.ltb 0 (length (GetAppsByRoleResponse_Apps_Nodes appsResult)) then
    shipperApp <- index (GetAppsByRoleResponse_Apps_Nodes appsResult) 0 ;;
    ret (Some shipperApp, err)
  else
    let input := DefaultCreateAppInput d in
    let input := set_Machines true input in
    let input := set_OrganizationId (AppDataOrganization_Id targetOrg) input in
    let input := set_AppRoleId "log-shipper" input in
    let input :=
      set_Name (LoggerAppName (AppDataOrganization_RawSlug targetOrg)) input in
    '(createdAppResult, err') <-
      call (EvCreateApp input) (fun t => gql_CreateApp r t input) ;;
    match err' with
    | Some e => ret (None, Some e)
    | None =>
    let shipperApp :=
      Some (CreateAppResponse_CreateApp_App_AppData createdAppResult) in
    err' <- EnsureShipperMachine shipperApp ;;
    match err' with
    | Some e => ret (None, Some e)
    | None => ret (shipperApp, err)
    end end
  end.

Definition SetNatsTokenSecret (shipperApp : option AppData)
  : M AddOnType (option error) :=
  match shipperApp with
  | None => panic
  | Some app =>
      let name :=
        AppDataOrganization_Slug (AppData_Organization app) +:+ "-logs" in
      let organizationId := AppDataOrganization_Id (AppData_Organization app) in
      '(tokenResponse, err) <-
        call (EvCreateLimitedAccessToken name organizationId
                "read_organization_apps" "" "")
             (fun t => gql_CreateLimitedAccessToken r t name organizationId
                         "read_organization_apps" "" "") ;;
      match err with
      | Some e => ret (Some e)
      | None =>
      let secrets :=
        {| SetSecretsInput_AppId := AppData_Id app;
           SetSecretsInput_Secrets :=
             [ {| SecretInput_Key := "NATS_TOKEN";
                  SecretInput_Value :=
                    CreateLimitedAccessTokenResponse_Token tokenResponse |} ]
        |} in
      _ <- call (EvSetSecrets secrets) (fun t => gql_SetSecrets r t secrets) ;;
      let args :=
        {| MachineDeploymentArgs_AppCompact := ToAppCompact app;
           MachineDeploymentArgs_RestartOnly := true;
           MachineDeploymentArgs_SkipHealthChecks := true |} in
      err <-
        call (EvNewMachineDeployment args)
             (fun t => deploy_NewMachineDeployment r t args) ;;
      match err with
      | Some e => ret (Some e)
      | None =>
      let md := args in
      err <-
        call (EvDeployMachinesApp md)
             (fun t => deploy_DeployMachinesApp r t md) ;;
      ret err
      end end
  end.

Definition runSetup (ctx : context_Context) : M AddOnType (option error) :=
  let err : option error := None in
  let appName := appconfig_NameFromContext ctx in
  match err with
  | Some e => ret (Some e)
  | None =>
  '(appNameResponse, err) <-
    call (EvGetApp appName) (fun t => gql_GetApp r t appName) ;;
  match err with
  | Some e => ret (Some e)
  | None =>
  let targetApp := GetAppResponse_App_AppData appNameResponse in
  let targetOrg := AppData_Organization targetApp in
  let providerOptions := map Provider_Name providers in
  '(providerIndex, err) <-
    call (EvSelect "Select a logging provider:" "" providerOptions)
         (fun t => prompt_Select r t "Select a logging provider:" ""
                     providerOptions) ;;
  match err with
  | Some e => ret (Some e)
  | None =>
  provider <- index providers providerIndex ;;
  (if Provider_Auto provider then
     provider <- index providers providerIndex ;;
     _ <- ProvisionAutoShipper targetApp (Provider_Slug provider) ;;
     ret tt
   else ret tt) ;;;
  '(shipperApp, err) <- EnsureShipperApp targetOrg ;;
  match err with
  | Some e => ret (Some e)
  | None =>
  err <- EnsureShipperMachine shipperApp ;;
  _ <- SetNatsTokenSecret shipperApp ;;
  ret err
  end end end end.

End Workflow.

Arguments AddOnTypes {AddOnType}.
Arguments AddOnTypes_at {AddOnType}.
Arguments ProvisionAutoShipper_for {AddOnType}.
Arguments ProvisionAutoShipper {AddOnType}.
Arguments EnsureShipperMachine {AddOnType}.
Arguments EnsureShipperApp {AddOnType}.
Arguments SetNatsTokenSecret {AddOnType}.
Arguments runSetup {AddOnType}.

(** The calls that [EnsureShipperMachine] can make. *)
Definition is_machine_event {T : Type} (e : Event T) : bool :=
  match e with
  | EvFlapsNew _ | EvFlapsList _ _ | EvGetNearestRegion | EvFlapsLaunch _ _
  | EvOutput _ => true
  | _ => false
  end.

(** [ev] is no app creation, or one of an app called [name]. *)
Definition creates_app_named {T : Type} (name : string) (ev : Event T) : bool :=
  match ev with
  | EvCreateApp input => String.eqb (CreateAppInput_Name input) name
  | _ => true
  end.

(** [ev] is no add-on lookup or creation, or one of an add-on called
    [name]. *)
Definition addon_named {T : Type} (name : string) (ev : Event T) : bool :=
  match ev with
  | EvGetAddOn n => String.eqb n name
  | EvCreateAddOn input => String.eqb (CreateAddOnInput_Name input) name
  | _ => true
  end.

(** [ev] is no token creation, or one of a token called [name]. *)
Definition credential_named {T : Type} (name : string) (ev : Event T) : bool :=
  match ev with
  | EvCreateLimitedAccessToken n _ _ _ _ => String.eqb n name
  | _ => true
  end.

(* ===================================================================== *)
(** ** Scenarios *)
(* ===================================================================== *)

(** Concrete surroundings on which the workflow is run: organization [acme]
    with the app [web], in several states of the remote side. *)
Module Scenario.

Definition decls : Decls string :=
  {| AddOnType_zero := "";
     AddOnTypeLogtail := "logtail";
     AddOnTypeUpstashRedis := "upstash_redis";
     MachineConfigMetadataKeyFlyPlatformVersion := "fly_platform_version";
     MachineFlyPlatformVersion2 := "v2";
     MachineConfigMetadataKeyFlyManagedPostgres := "fly-managed-postgres";
     DefaultCreateAppInput :=
       {| CreateAppInput_Machines := false;
          CreateAppInput_OrganizationId := "";
          CreateAppInput_AppRoleId := "";
          CreateAppInput_Name := "" |} |}.

Definition acme : AppDataOrganization :=
  {| AppDataOrganization_Id := "org-1";
     AppDataOrganization_Slug := "acme";
     AppDataOrganization_RawSlug := "acme" |}.

Definition web : AppData :=
  {| AppData_Id := "app-1"; AppData_Name := "web";
     AppData_Organization := acme |}.

Definition shipper : AppData :=
  {| AppData_Id := "app-2"; AppData_Name := "acme-auto-log-shipper";
     AppData_Organization := acme |}.

Definition ctx : context_Context := {| appconfig_NameFromContext := "web" |}.

(** Index of [logtail] in [providers]. *)
Definition logtail_index : Z := 9.

Definition no_addon : GetAddOnResponse :=
  {| GetAddOnResponse_AddOn_Token := "";
     GetAddOnResponse_AddOn_Organization_Slug := "" |}.

(** Everything is there already and every call succeeds. *)
Definition provisioned : Remote string :=
  {| gql_GetApp := fun _ _ => ({| GetAppResponse_App_AppData := web |}, None);
     prompt_Select := fun _ _ _ _ => (logtail_index, None);
     gql_GetAddOn := fun _ _ =>
       ({| GetAddOnResponse_AddOn_Token := "tok-existing";
           GetAddOnResponse_AddOn_Organization_Slug := "acme" |}, None);
     gql_CreateAddOn := fun _ _ =>
       ({| CreateAddOnResponse_CreateAddOn_AddOn_Token := "tok-new" |}, None);
     gql_GetAppsByRole := fun _ _ _ =>
       ({| GetAppsByRoleResponse_Apps_Nodes := [shipper] |}, None);
     gql_CreateApp := fun _ _ =>
       ({| CreateAppResponse_CreateApp_App_AppData := shipper |}, None);
     flaps_New := fun _ _ => None;
     flaps_List := fun _ _ _ => ([ {| Machine_ID := "m-1" |} ], None);
     gql_GetNearestRegion := fun _ =>
       ({| GetNearestRegionResponse_NearestRegion_Code := "ams" |}, None);
     flaps_Launch := fun _ _ _ => (Some {| Machine_ID := "m-2" |}, None);
     gql_CreateLimitedAccessToken := fun _ _ _ _ _ _ =>
       ({| CreateLimitedAccessTokenResponse_Token := "nats-1" |}, None);
     gql_SetSecrets := fun _ _ => None;
     deploy_NewMachineDeployment := fun _ _ => None;
     deploy_DeployMachinesApp := fun _ _ => None |}.

(** Nothing is there yet: the add-on lookup fails with a wrapped
    [gqlerror.List], no app has the role until one is created, and the
    shipper has no machine until one is launched. *)
Definition fresh : Remote string :=
  {| gql_GetApp := gql_GetApp provisioned;
     prompt_Select := prompt_Select provisioned;
     gql_GetAddOn := fun _ _ =>
       (no_addon,
        Some (wrapError "input:3: addOn"
                (gqlerror_List ["Could not find AddOn"])));
     gql_CreateAddOn := gql_CreateAddOn provisioned;
     gql_GetAppsByRole := fun t _ _ =>
       ({| GetAppsByRoleResponse_Apps_Nodes :=
             if existsb is_CreateApp t then [shipper] else [] |}, None);
     gql_CreateApp := gql_CreateApp provisioned;
     flaps_New := flaps_New provisioned;
     flaps_List := fun t _ _ =>
       (if existsb is_FlapsLaunch t then [ {| Machine_ID := "m-2" |} ] else [],
        None);
     gql_GetNearestRegion := gql_GetNearestRegion provisioned;
     flaps_Launch := flaps_Launch provisioned;
     gql_CreateLimitedAccessToken := gql_CreateLimitedAccessToken provisioned;
     gql_SetSecrets := gql_SetSecrets provisioned;
     deploy_NewMachineDeployment := deploy_NewMachineDeployment provisioned;
     deploy_DeployMachinesApp := deploy_DeployMachinesApp provisioned |}.

(** The shipper app exists, the flaps client cannot be made. *)
Definition machine_down : Remote string :=
  {| gql_GetApp := gql_GetApp provisioned;
     prompt_Select := prompt_Select provisioned;
     gql_GetAddOn := gql_GetAddOn provisioned;
     gql_CreateAddOn := gql_CreateAddOn provisioned;
     gql_GetAppsByRole := gql_GetAppsByRole provisioned;
     gql_CreateApp := gql_CreateApp provisioned;
     flaps_New := fun _ _ => Some (errorString "flaps: connection refused");
     flaps_List := flaps_List provisioned;
     gql_GetNearestRegion := gql_GetNearestRegion provisioned;
     flaps_Launch := flaps_Launch provisioned;
     gql_CreateLimitedAccessToken := gql_CreateLimitedAccessToken provisioned;
     gql_SetSecrets := gql_SetSecrets provisioned;
     deploy_NewMachineDeployment := deploy_NewMachineDeployment provisioned;
     deploy_DeployMachinesApp := deploy_DeployMachinesApp provisioned |}.

(** The add-on lookup fails for a reason other than absence: a transport
    error wrapping a plain error, no [gqlerror.List] on its chain. *)
Definition lookup_error : error :=
  wrapError "Post https://api.fly.io/graphql" (errorString "connection refused").

Definition lookup_down : Remote string :=
  {| gql_GetApp := gql_GetApp provisioned;
     prompt_Select := prompt_Select provisioned;
     gql_GetAddOn := fun _ _ => (no_addon, Some lookup_error);
     gql_CreateAddOn := gql_CreateAddOn provisioned;
     gql_GetAppsByRole := gql_GetAppsByRole provisioned;
     gql_CreateApp := gql_CreateApp provisioned;
     flaps_New := flaps_New provisioned;
     flaps_List := flaps_List provisioned;
     gql_GetNearestRegion := gql_GetNearestRegion provisioned;
     flaps_Launch := flaps_Launch provisioned;
     gql_CreateLimitedAccessToken := gql_CreateLimitedAccessToken provisioned;
     gql_SetSecrets := gql_SetSecrets provisioned;
     deploy_NewMachineDeployment := deploy_NewMachineDeployment provisioned;
     deploy_DeployMachinesApp := deploy_DeployMachinesApp provisioned |}.

(** The secret write is refused, everything else succeeds. *)
Definition secrets_down : Remote string :=
  {| gql_GetApp := gql_GetApp provisioned;
     prompt_Select := prompt_Select provisioned;
     gql_GetAddOn := gql_GetAddOn provisioned;
     gql_CreateAddOn := gql_CreateAddOn provisioned;
     gql_GetAppsByRole := gql_GetAppsByRole provisioned;
     gql_CreateApp := gql_CreateApp provisioned;
     flaps_New := flaps_New provisioned;
     flaps_List := flaps_List provisioned;
     gql_GetNearestRegion := gql_GetNearestRegion provisioned;
     flaps_Launch := flaps_Launch provisioned;
     gql_CreateLimitedAccessToken := gql_CreateLimitedAccessToken provisioned;
     gql_SetSecrets := fun _ _ =>
       Some (gqlerror_List ["Not authorized to set secrets"]);
     deploy_NewMachineDeployment := deploy_NewMachineDeployment provisioned;
     deploy_DeployMachinesApp := deploy_DeployMachinesApp provisioned |}.

End Scenario.

(* ===================================================================== *)
(** ** The specification's reading of an unmapped provider slug *)
(* ===================================================================== *)

(** The specification's words, to be compared with [ProvisionAutoShipper]:
    for a provider slug absent from [AddOnTypes], creation fails (an error
    comes back) or is rejected before submission (no create mutation leaves
    the workflow). *)
Definition unmapped_slug_rejected {AddOnType : Type} (d : Decls AddOnType)
    (r : Remote AddOnType) (targetApp : AppData) (provider : string)
    (t : Trace AddOnType) : Prop :=
  AddOnTypes d !! provider = None ->
  forall t' token err,
    ProvisionAutoShipper d r targetApp provider t = (t', Returns (token, err)) ->
    err <> None \/ none_issued is_CreateAddOn (new_events t t') = true.

(* ===================================================================== *)
(** ** Package [gql]: [IsErrorNotFound] *)
(* ===================================================================== *)

(** [strings.HasPrefix] and [strings.Contains] of Go, on byte strings. *)
Fixpoint strings_HasPrefix (s prefix : string) {struct prefix} : bool :=
  match prefix with
  | EmptyString => true
  | String c prefix' =>
      match s with
      | EmptyString => false
      | String c' s' =>
          if Ascii.eqb c c' then strings_HasPrefix s' prefix' else false
      end
  end.

Fixpoint strings_Contains (s substr : string) : bool :=
  strings_HasPrefix s substr
  || match s with
     | EmptyString => false
     | String _ s' => strings_Contains s' substr
     end.

(** [err.Error()].  The text of a [gqlerror.List] is made by the gqlerror
    library and stays a parameter; the other errors carry their text. *)
Definition error_Error (gqlerror_List_Error : list gqlerror_Error -> string)
    (err : error) : string :=
  match err with
  | gqlerror_List errs => gqlerror_List_Error errs
  | errorString msg => msg
  | wrapError msg _ => msg
  end.

(** [IsErrorNotFound]; calling [Error] on a nil [error] panics. *)
Definition IsErrorNotFound (gqlerror_List_Error : list gqlerror_Error -> string)
    (err : option error) : Outcome bool :=
  match err with
  | None => Panics
  | Some e =>
      Returns (strings_Contains (error_Error gqlerror_List_Error e) "not find")
  end.

(* ===================================================================== *)
(** ** What the calls of a run look like *)
(* ===================================================================== *)

(** Every run of [c] only appends to the trace, and only events that
    satisfy [P]. *)
Definition emits {T A : Type} (P : Event T -> Prop) (c : M T A) : Prop :=
  forall t, exists evs, fst (c t) = t ++ evs /\ Forall P evs.

(** The machine configuration that [EnsureShipperMachine] builds. *)
Definition machineConf {T : Type} (d : Decls T) : MachineConfig :=
  {| MachineConfig_Guest :=
       {| MachineGuest_CPUKind := "shared";
          MachineGuest_CPUs := 1;
          MachineGuest_MemoryMB := 256 |};
     MachineConfig_Image := "flyio/log-shipper:auto-a14aa63";
     MachineConfig_Metadata :=
       {[ MachineConfigMetadataKeyFlyPlatformVersion d :=
            MachineFlyPlatformVersion2 d;
          MachineConfigMetadataKeyFlyManagedPostgres d := "true";
          "managed-by-fly-deploy" := "true" ]} |}.

(** The calls of the add-on step: a lookup or a creation of the add-on
    [name], a creation being the one of [targetApp] with type [ty]. *)
Definition addon_event {T : Type} (targetApp : AppData) (ty : T)
    (ev : Event T) : Prop :=
  match ev with
  | EvGetAddOn n => n = AppData_Name targetApp +:+ "-log-shipper"
  | EvCreateAddOn input =>
      input =
        {| CreateAddOnInput_OrganizationId :=
             AppDataOrganization_Id (AppData_Organization targetApp);
           CreateAddOnInput_Name := AppData_Name targetApp +:+ "-log-shipper";
           CreateAddOnInput_AppId := AppData_Id targetApp;
           CreateAddOnInput_Type := ty |}
  | EvOutput _ => True
  | _ => False
  end.

(** The calls of the machine step on [app]. *)
Definition machine_event {T : Type} (d : Decls T) (app : AppData)
    (ev : Event T) : Prop :=
  match ev with
  | EvFlapsNew c => c = ToAppCompact app
  | EvFlapsList c state => c = ToAppCompact app /\ state = ""
  | EvGetNearestRegion => True
  | EvFlapsLaunch c input =>
      c = ToAppCompact app /\
      LaunchMachineInput_Name input = "log-shipper" /\
      LaunchMachineInput_Config input = machineConf d
  | EvOutput (PrintLaunched name _) => name = AppData_Name app
  | _ => False
  end.

(** The calls of the app step for [targetOrg]. *)
Definition app_event {T : Type} (d : Decls T) (targetOrg : AppDataOrganization)
    (ev : Event T) : Prop :=
  match ev with
  | EvGetAppsByRole role organizationId =>
      role = "log-shipper" /\ organizationId = AppDataOrganization_Id targetOrg
  | EvCreateApp input =>
      input =
        {| CreateAppInput_Machines := true;
           CreateAppInput_OrganizationId := AppDataOrganization_Id targetOrg;
           CreateAppInput_AppRoleId := "log-shipper";
           CreateAppInput_Name :=
             AppDataOrganization_RawSlug targetOrg +:+ "-auto-log-shipper" |}
  | _ => exists app, machine_event d app ev
  end.

(** The calls of the credential step on [app]. *)
Definition secret_event {T : Type} (app : AppData) (ev : Event T) : Prop :=
  match ev with
  | EvCreateLimitedAccessToken name organizationId profile params expiry =>
      name = AppDataOrganization_Slug (AppData_Organization app) +:+ "-logs" /\
      organizationId = AppDataOrganization_Id (AppData_Organization app) /\
      profile = "read_organization_apps" /\ params = "" /\ expiry = ""
  | EvSetSecrets input =>
      SetSecretsInput_AppId input = AppData_Id app /\
      exists value,
        SetSecretsInput_Secrets input =
          [ {| SecretInput_Key := "NATS_TOKEN"; SecretInput_Value := value |} ]
  | EvNewMachineDeployment args | EvDeployMachinesApp args =>
      args =
        {| MachineDeploymentArgs_AppCompact := ToAppCompact app;
           MachineDeploymentArgs_RestartOnly := true;
           MachineDeploymentArgs_SkipHealthChecks := true |}
  | _ => False
  end.

(** The calls of a whole setup. *)
Definition setup_event {T : Type} (d : Decls T) (ctx : context_Context)
    (ev : Event T) : Prop :=
  match ev with
  | EvGetApp name => name = appconfig_NameFromContext ctx
  | EvSelect message help options =>
      message = "Select a logging provider:" /\ help = "" /\
      options = map Provider_Name providers
  | EvGetAddOn _ | EvCreateAddOn _ =>
      exists targetApp, addon_event targetApp (AddOnTypeLogtail d) ev
  | EvOutput _ => True
  | EvGetAppsByRole _ _ | EvCreateApp _ =>
      exists targetOrg, app_event d targetOrg ev
  | EvFlapsNew _ | EvFlapsList _ _ | EvGetNearestRegion | EvFlapsLaunch _ _ =>
      exists app, machine_event d app ev
  | _ => exists app, secret_event app ev
  end.

Definition is_GetAddOn {T : Type} (e : Event T) : bool :=
  match e with EvGetAddOn _ => true | _ => false end.

Definition is_GetApp {T : Type} (e : Event T) : bool :=
  match e with EvGetApp _ => true | _ => false end.

Definition is_Select {T : Type} (e : Event T) : bool :=
  match e with EvSelect _ _ _ => true | _ => false end.

Definition is_GetAppsByRole {T : Type} (e : Event T) : bool :=
  match e with EvGetAppsByRole _ _ => true | _ => false end.

Definition is_FlapsList {T : Type} (e : Event T) : bool :=
  match e with EvFlapsList _ _ => true | _ => false end.

Definition is_SetSecrets {T : Type} (e : Event T) : bool :=
  match e with EvSetSecrets _ => true | _ => false end.

Definition is_NewMachineDeployment {T : Type} (e : Event T) : bool :=
  match e with EvNewMachineDeployment _ => true | _ => false end.

Definition is_DeployMachinesApp {T : Type} (e : Event T) : bool :=
  match e with EvDeployMachinesApp _ => true | _ => false end.

(** The number of events of [evs] that satisfy [p]. *)
Definition count_events {T : Type} (p : Event T -> bool) (evs : Trace T) : nat :=
  length (List.filter p evs).

(* ===================================================================== *)
(** ** Outages *)
(* ===================================================================== *)

(** Remote sides on which one kind of call fails. *)
Module Outage.

(** [base], except that every call whose event satisfies [p] fails with
    [e]. *)
Definition failing {T : Type} (p : Event T -> bool) (e : error)
    (base : Remote T) : Remote T :=
  {| gql_GetApp := fun t name =>
       if p (EvGetApp name)
       then (fst (gql_GetApp base t name), Some e)
       else gql_GetApp base t name;
     prompt_Select := fun t message help options =>
       if p (EvSelect message help options)
       then (fst (prompt_Select base t message help options), Some e)
       else prompt_Select base t message help options;
     gql_GetAddOn := fun t name =>
       if p (EvGetAddOn name)
       then (fst (gql_GetAddOn base t name), Some e)
       else gql_GetAddOn base t name;
     gql_CreateAddOn := fun t input =>
       if p (EvCreateAddOn input)
       then (fst (gql_CreateAddOn base t input), Some e)
       else gql_CreateAddOn base t input;
     gql_GetAppsByRole := fun t role organizationId =>
       if p (EvGetAppsByRole role organizationId)
       then (fst (gql_GetAppsByRole base t role organizationId), Some e)
       else gql_GetAppsByRole base t role organizationId;
     gql_CreateApp := fun t input =>
       if p (EvCreateApp input)
       then (fst (gql_CreateApp base t input), Some e)
       else gql_CreateApp base t input;
     flaps_New := fun t app =>
       if p (EvFlapsNew app) then Some e else flaps_New base t app;
     flaps_List := fun t client state =>
       if p (EvFlapsList client state)
       then (fst (flaps_List base t client state), Some e)
       else flaps_List base t client state;
     gql_GetNearestRegion := fun t =>
       if p EvGetNearestRegion
       then (fst (gql_GetNearestRegion base t), Some e)
       else gql_GetNearestRegion base t;
     flaps_Launch := fun t client input =>
       if p (EvFlapsLaunch client input)
       then (None, Some e)
       else flaps_Launch base t client input;
     gql_CreateLimitedAccessToken := fun t name organizationId profile params
                                         expiry =>
       if p (EvCreateLimitedAccessToken name organizationId profile params
               expiry)
       then (fst (gql_CreateLimitedAccessToken base t name organizationId
                    profile params expiry), Some e)
       else gql_CreateLimitedAccessToken base t name organizationId profile
              params expiry;
     gql_SetSecrets := fun t input =>
       if p (EvSetSecrets input) then Some e else gql_SetSecrets base t input;
     deploy_NewMachineDeployment := fun t args =>
       if p (EvNewMachineDeployment args)
       then Some e
       else deploy_NewMachineDeployment base t args;
     deploy_DeployMachinesApp := fun t md =>
       if p (EvDeployMachinesApp md)
       then Some e
       else deploy_DeployMachinesApp base t md |}.

(** [base], except that the prompt answers with [providerIndex]. *)
Definition choosing {T : Type} (providerIndex : Z) (base : Remote T)
  : Remote T :=
  {| gql_GetApp := gql_GetApp base;
     prompt_Select := fun _ _ _ _ => (providerIndex, None);
     gql_GetAddOn := gql_GetAddOn base;
     gql_CreateAddOn := gql_CreateAddOn base;
     gql_GetAppsByRole := gql_GetAppsByRole base;
     gql_CreateApp := gql_CreateApp base;
     flaps_New := flaps_New base;
     flaps_List := flaps_List base;
     gql_GetNearestRegion := gql_GetNearestRegion base;
     flaps_Launch := flaps_Launch base;
     gql_CreateLimitedAccessToken := gql_CreateLimitedAccessToken base;
     gql_SetSecrets := gql_SetSecrets base;
     deploy_NewMachineDeployment := deploy_NewMachineDeployment base;
     deploy_DeployMachinesApp := deploy_DeployMachinesApp base |}.

Definition unavailable : error := errorString "503 Service Unavailable".

(** Go's [fmt] would print a [gqlerror.List] line by line; any text does for
    the examples. *)
Definition list_text (errs : list gqlerror_Error) : string :=
  String.concat "; " errs.

End Outage.

(* ===================================================================== *)
(** ** Properties *)
(* ===================================================================== *)

(** *** Traces and the monad *)

Lemma new_events_app {T : Type} (t evs : Trace T) :
  new_events t (t ++ evs) = evs.
Proof. unfold new_events. apply drop_app_length. Qed.

Lemma for_range_print {T : Type} (xs : list gqlerror_Error) (t : Trace T) :
  for_range xs (fun gqlErr => print (PrintGqlError gqlErr)) t =
  (t ++ map (fun gqlErr => EvOutput (PrintGqlError gqlErr)) xs, Returns tt).
Proof.
  revert t. induction xs as [|x xs IH]; intros t; simpl.
  - unfold ret. now rewrite app_nil_r.
  - unfold bind, print at 1. rewrite IH. now rewrite <- app_assoc.
Qed.

(** Unfold the monad on the goal and compute. *)
Ltac run := unfold bind, call, print, ret, panic; simpl.

Section Runs.

Variable AddOnType : Type.
Variable d : Decls AddOnType.
Variable r : Remote AddOnType.

(** *** The unwrap loop of [ProvisionAutoShipper] *)

(** The loop body as the source has it: the type assertion first, then
    [err = errors.Unwrap(err)] and the loop condition. *)
Lemma ProvisionAutoShipper_for_eq targetApp provider addOnName token err t :
  is_gqlerror_List err = false ->
  ProvisionAutoShipper_for d r targetApp provider addOnName token err t =
  match errors_Unwrap err with
  | None => (t, Returns (ForDone token None))
  | Some err' =>
      ProvisionAutoShipper_for d r targetApp provider addOnName token err' t
  end.
Proof. destruct err; simpl; [discriminate | reflexivity | reflexivity]. Qed.

(** Without a [gqlerror.List] on the chain the loop runs until [err] is nil,
    calls nothing and leaves [token] as it was. *)
Lemma ProvisionAutoShipper_for_exhausts targetApp provider addOnName token err t :
  chain_has_List err = false ->
  ProvisionAutoShipper_for d r targetApp provider addOnName token err t =
  (t, Returns (ForDone token None)).
Proof.
  induction err as [errs | msg | msg inner IH]; simpl; intros H.
  - discriminate.
  - reflexivity.
  - now apply IH.
Qed.

(** With a [gqlerror.List] on the chain the loop prints the elements of the
    first one and submits the create mutation. *)
Lemma ProvisionAutoShipper_for_creates targetApp provider addOnName token err t :
  chain_has_List err = true ->
  let input :=
    {| CreateAddOnInput_OrganizationId :=
         AppDataOrganization_Id (AppData_Organization targetApp);
       CreateAddOnInput_Name := addOnName;
       CreateAddOnInput_AppId := AppData_Id targetApp;
       CreateAddOnInput_Type := AddOnTypes_at d provider |} in
  let t1 :=
    t ++ map (fun gqlErr => EvOutput (PrintGqlError gqlErr))
             (chain_first_List err) in
  exists brk,
    chain_has_List brk = true /\
    ProvisionAutoShipper_for d r targetApp provider addOnName token err t =
    (t1 ++ [EvCreateAddOn input],
     Returns
       match gql_CreateAddOn r t1 input with
       | (_, Some e) => ForReturn "" (Some e)
       | (createAddOnResponse, None) =>
           ForDone
             (CreateAddOnResponse_CreateAddOn_AddOn_Token createAddOnResponse)
             (Some brk)
       end).
Proof.
  induction err as [errs | msg | msg inner IH]; simpl; intros H.
  - exists (gqlerror_List errs). split; [reflexivity|].
    unfold bind at 1. rewrite for_range_print.
    run. destruct (gql_CreateAddOn r _ _) as [resp [e|]]; reflexivity.
  - discriminate.
  - now apply IH.
Qed.

(** *** [ProvisionAutoShipper] *)

(** C5. Whenever the lookup of the add-on named [<app-name>-log-shipper]
    returns without error, [ProvisionAutoShipper] returns the token of the
    add-on found, with a nil error, and submits no create-add-on mutation:
    the run consists of the lookup and two printed lines. *)
Theorem ProvisionAutoShipper_reuses_addon
    (targetApp : AppData) (provider : string) (t : Trace AddOnType)
    (getAddOnResponse : GetAddOnResponse) :
  gql_GetAddOn r t (AppData_Name targetApp +:+ "-log-shipper") =
    (getAddOnResponse, None) ->
  let t' :=
    t ++ [EvGetAddOn (AppData_Name targetApp +:+ "-log-shipper");
          EvOutput (PrintErrorType None);
          EvOutput (PrintAlreadyProvisioned
                      (GetAddOnResponse_AddOn_Organization_Slug
                         getAddOnResponse))] in
  ProvisionAutoShipper d r targetApp provider t =
    (t', Returns (GetAddOnResponse_AddOn_Token getAddOnResponse, None)) /\
  none_issued is_CreateAddOn (new_events t t') = true.
Proof.
  intros H t'. subst t'. split.
  - unfold ProvisionAutoShipper. run. rewrite H. simpl.
    now rewrite <- !app_assoc.
  - now rewrite new_events_app.
Qed.

(** C10. Whenever the lookup fails with an error whose unwrap chain has no
    [gqlerror.List], the loop unwraps until the error is nil and calls
    nothing; [ProvisionAutoShipper] then prints "already provisioned" and
    returns the token field of the response of the failed lookup with a nil
    error, and no create mutation is submitted. *)
Theorem ProvisionAutoShipper_masks_other_errors
    (targetApp : AppData) (provider : string) (t : Trace AddOnType)
    (getAddOnResponse : GetAddOnResponse) (err : error) :
  gql_GetAddOn r t (AppData_Name targetApp +:+ "-log-shipper") =
    (getAddOnResponse, Some err) ->
  chain_has_List err = false ->
  let addOnName := AppData_Name targetApp +:+ "-log-shipper" in
  let t1 := t ++ [EvGetAddOn addOnName; EvOutput (PrintErrorType (Some err))] in
  let t' :=
    t1 ++ [EvOutput (PrintAlreadyProvisioned
                       (GetAddOnResponse_AddOn_Organization_Slug
                          getAddOnResponse))] in
  ProvisionAutoShipper_for d r targetApp provider addOnName "" err t1 =
    (t1, Returns (ForDone "" None)) /\
  ProvisionAutoShipper d r targetApp provider t =
    (t', Returns (GetAddOnResponse_AddOn_Token getAddOnResponse, None)) /\
  none_issued is_CreateAddOn (new_events t t') = true.
Proof.
  intros H Hchain addOnName t1 t'. subst addOnName t1 t'.
  split; [|split].
  - now apply ProvisionAutoShipper_for_exhausts.
  - unfold ProvisionAutoShipper. run. rewrite H. simpl.
    rewrite ProvisionAutoShipper_for_exhausts by assumption.
    now rewrite <- !app_assoc.
  - rewrite <- app_assoc. now rewrite new_events_app.
Qed.

(** C3, as the code has it. For a provider slug absent from [AddOnTypes],
    when the lookup error has a [gqlerror.List] on its chain,
    [ProvisionAutoShipper] submits the create mutation with the add-on type
    set to the zero value of [AddOnType] (nothing is rejected before
    submission), and returns an error exactly when the mutation itself returns
    one; otherwise it returns the token of the created add-on. *)
Theorem ProvisionAutoShipper_unmapped_slug_submits_zero
    (targetApp : AppData) (provider : string) (t : Trace AddOnType)
    (getAddOnResponse : GetAddOnResponse) (err : error) :
  AddOnTypes d !! provider = None ->
  gql_GetAddOn r t (AppData_Name targetApp +:+ "-log-shipper") =
    (getAddOnResponse, Some err) ->
  chain_has_List err = true ->
  let addOnName := AppData_Name targetApp +:+ "-log-shipper" in
  let input :=
    {| CreateAddOnInput_OrganizationId :=
         AppDataOrganization_Id (AppData_Organization targetApp);
       CreateAddOnInput_Name := addOnName;
       CreateAddOnInput_AppId := AppData_Id targetApp;
       CreateAddOnInput_Type := AddOnType_zero d |} in
  let t1 :=
    t ++ [EvGetAddOn addOnName; EvOutput (PrintErrorType (Some err))]
      ++ map (fun gqlErr => EvOutput (PrintGqlError gqlErr))
             (chain_first_List err) in
  ProvisionAutoShipper d r targetApp provider t =
    (t1 ++ [EvCreateAddOn input],
     Returns
       match gql_CreateAddOn r t1 input with
       | (_, Some e) => ("", Some e)
       | (createAddOnResponse, None) =>
           (CreateAddOnResponse_CreateAddOn_AddOn_Token createAddOnResponse,
            None)
       end).
Proof.
  intros Habsent H Hchain addOnName input t1. subst addOnName input t1.
  unfold ProvisionAutoShipper. run. rewrite H. simpl.
  destruct (ProvisionAutoShipper_for_creates targetApp provider
              (AppData_Name targetApp +:+ "-log-shipper") ""
              err ((t ++ [EvGetAddOn (AppData_Name targetApp +:+ "-log-shipper")])
                     ++ [EvOutput (PrintErrorType (Some err))]) Hchain)
    as [brk [_ Hfor]].
  rewrite Hfor. clear Hfor.
  unfold AddOnTypes_at. rewrite Habsent. simpl.
  rewrite <- !app_assoc. simpl.
  destruct (gql_CreateAddOn r _ _) as [resp [e|]]; reflexivity.
Qed.

(** *** [EnsureShipperMachine] *)

(** C6. When the listing of the shipper app's instances returns one or more
    machines, [EnsureShipperMachine] returns nil at once: the run consists of
    making the flaps client and the listing, with no launch and no
    region-discovery call. *)
Theorem EnsureShipperMachine_existing_machine
    (shipperApp : AppData) (t : Trace AddOnType) (machines : list Machine) :
  flaps_New r t (ToAppCompact shipperApp) = None ->
  flaps_List r (t ++ [EvFlapsNew (ToAppCompact shipperApp)])
    (ToAppCompact shipperApp) "" = (machines, None) ->
  (0 < length machines)%nat ->
  let t' :=
    t ++ [EvFlapsNew (ToAppCompact shipperApp);
          EvFlapsList (ToAppCompact shipperApp) ""] in
  EnsureShipperMachine d r (Some shipperApp) t = (t', Returns None) /\
  none_issued is_FlapsLaunch (new_events t t') = true /\
  none_issued is_GetNearestRegion (new_events t t') = true.
Proof.
  intros Hnew Hlist Hlen t'. subst t'. split; [|split].
  - unfold EnsureShipperMachine. run. rewrite Hnew. simpl. rewrite Hlist.
    simpl. destruct machines as [|m ms]; [simpl in Hlen; lia|].
    simpl. now rewrite <- app_assoc.
  - now rewrite new_events_app.
  - now rewrite new_events_app.
Qed.

(** C9. When the listing returns no machine and region discovery succeeds,
    the launch request that [EnsureShipperMachine] submits is the fixed one:
    guest ["shared"], 1 CPU, 256 MB; image
    ["flyio/log-shipper:auto-a14aa63"]; the three metadata tags; name
    ["log-shipper"]; and the region code that the discovery call of this run
    returned.  The launch is the next call after discovery, and its error,
    if any, is the result. *)
Theorem EnsureShipperMachine_launch_request
    (shipperApp : AppData) (t : Trace AddOnType)
    (regionResponse : GetNearestRegionResponse) :
  let flapsClient := ToAppCompact shipperApp in
  let t3 :=
    t ++ [EvFlapsNew flapsClient; EvFlapsList flapsClient "";
          EvGetNearestRegion] in
  let launchInput :=
    {| LaunchMachineInput_Name := "log-shipper";
       LaunchMachineInput_Config :=
         {| MachineConfig_Guest :=
              {| MachineGuest_CPUKind := "shared";
                 MachineGuest_CPUs := 1;
                 MachineGuest_MemoryMB := 256 |};
            MachineConfig_Image := "flyio/log-shipper:auto-a14aa63";
            MachineConfig_Metadata :=
              {[ MachineConfigMetadataKeyFlyPlatformVersion d :=
                   MachineFlyPlatformVersion2 d;
                 MachineConfigMetadataKeyFlyManagedPostgres d := "true";
                 "managed-by-fly-deploy" := "true" ]} |};
       LaunchMachineInput_Region :=
         GetNearestRegionResponse_NearestRegion_Code regionResponse |} in
  flaps_New r t flapsClient = None ->
  flaps_List r (t ++ [EvFlapsNew flapsClient]) flapsClient "" = ([], None) ->
  gql_GetNearestRegion r
    (t ++ [EvFlapsNew flapsClient; EvFlapsList flapsClient ""]) =
    (regionResponse, None) ->
  EnsureShipperMachine d r (Some shipperApp) t =
    match snd (flaps_Launch r t3 flapsClient launchInput) with
    | Some e => (t3 ++ [EvFlapsLaunch flapsClient launchInput], Returns (Some e))
    | None =>
        (t3 ++ [EvFlapsLaunch flapsClient launchInput;
                EvOutput (PrintLaunched (AppData_Name shipperApp)
                            (GetNearestRegionResponse_NearestRegion_Code
                               regionResponse))],
         Returns None)
    end.
Proof.
  intros flapsClient t3 launchInput Hnew Hlist Hregion.
  subst flapsClient t3 launchInput.
  unfold EnsureShipperMachine. run. rewrite Hnew. simpl. rewrite Hlist. simpl.
  rewrite <- !app_assoc. simpl. rewrite Hregion. simpl.
  rewrite <- !app_assoc. simpl.
  destruct (flaps_Launch r _ _ _) as [m [e|]]; simpl;
    rewrite <- ?app_assoc; reflexivity.
Qed.

(** [EnsureShipperMachine] only appends to the trace, and only calls of its
    own. *)
Lemma EnsureShipperMachine_events (shipperApp : option AppData)
    (t : Trace AddOnType) :
  exists evs,
    fst (EnsureShipperMachine d r shipperApp t) = t ++ evs /\
    forallb is_machine_event evs = true.
Proof.
  destruct shipperApp as [app|]; unfold EnsureShipperMachine; run.
  2: { exists []. now rewrite app_nil_r. }
  destruct (flaps_New r t _) as [e|]; simpl.
  { eexists. split; [reflexivity|reflexivity]. }
  destruct (flaps_List r _ _ _) as [machines [e|]]; simpl.
  { eexists. split; [now rewrite <- app_assoc|reflexivity]. }
  destruct machines as [|m ms]; simpl.
  2: { eexists. split; [now rewrite <- app_assoc|reflexivity]. }
  destruct (gql_GetNearestRegion r _) as [region [e|]]; simpl.
  { eexists. split; [now rewrite <- !app_assoc|reflexivity]. }
  destruct (flaps_Launch r _ _ _) as [m [e|]]; simpl.
  - eexists. split; [now rewrite <- !app_assoc|reflexivity].
  - eexists. split; [now rewrite <- !app_assoc|reflexivity].
Qed.

Lemma forallb_weaken {A : Type} (p q : A -> bool) (l : list A) :
  (forall a, p a = true -> q a = true) ->
  forallb p l = true -> forallb q l = true.
Proof.
  intros Hpq. induction l as [|a l IH]; simpl; [reflexivity|].
  intros H. apply andb_prop in H. destruct H as [Ha Hl].
  rewrite (Hpq a Ha). now apply IH.
Qed.

(** *** [EnsureShipperApp] *)


(** *** Names *)

Lemma addon_named_prints (name : string) (xs : list gqlerror_Error) :
  forallb (addon_named (T:=AddOnType) name)
    (map (fun gqlErr => EvOutput (PrintGqlError gqlErr)) xs) = true.
Proof. induction xs as [|x xs IH]; simpl; [reflexivity | exact IH]. Qed.

(** Every run of [ProvisionAutoShipper] starts with the lookup of
    [<app-name>-log-shipper], and every add-on call of the run carries that
    name. *)
Lemma ProvisionAutoShipper_events (targetApp : AppData) (provider : string)
    (t : Trace AddOnType) :
  let addOnName := AppData_Name targetApp +:+ "-log-shipper" in
  exists evs,
    fst (ProvisionAutoShipper d r targetApp provider t) =
      t ++ EvGetAddOn addOnName :: evs /\
    forallb (addon_named addOnName) evs = true.
Proof.
  intros addOnName. subst addOnName.
  unfold ProvisionAutoShipper. unfold bind at 1. unfold call at 1.
  destruct (gql_GetAddOn r t _) as [resp [err|]]; cbv beta iota.
  - destruct (chain_has_List err) eqn:Hchain.
    + unfold bind at 1. unfold print at 1. unfold bind at 1.
      destruct (ProvisionAutoShipper_for_creates targetApp provider
                  (AppData_Name targetApp +:+ "-log-shipper") "" err
                  ((t ++ [EvGetAddOn
                            (AppData_Name targetApp +:+ "-log-shipper")])
                     ++ [EvOutput (PrintErrorType (Some err))]) Hchain)
        as [brk [_ Hfor]].
      rewrite Hfor. clear Hfor.
      exists ([EvOutput (PrintErrorType (Some err))]
                ++ map (fun gqlErr => EvOutput (PrintGqlError gqlErr))
                       (chain_first_List err)
                ++ [EvCreateAddOn
                      {| CreateAddOnInput_OrganizationId :=
                           AppDataOrganization_Id
                             (AppData_Organization targetApp);
                         CreateAddOnInput_Name :=
                           AppData_Name targetApp +:+ "-log-shipper";
                         CreateAddOnInput_AppId := AppData_Id targetApp;
                         CreateAddOnInput_Type := AddOnTypes_at d provider |}]).
      split.
      * destruct (gql_CreateAddOn r _ _) as [created [e|]]; run;
          rewrite <- !app_assoc; reflexivity.
      * simpl. rewrite forallb_app, addon_named_prints. simpl.
        now rewrite String.eqb_refl.
    + run. rewrite ProvisionAutoShipper_for_exhausts by assumption.
      eexists. split; [rewrite <- !app_assoc; reflexivity | reflexivity].
  - run. eexists. split; [rewrite <- !app_assoc; reflexivity | reflexivity].
Qed.

(** Every app creation of a run of [EnsureShipperApp] carries the name
    [<raw slug>-auto-log-shipper]. *)
Lemma EnsureShipperApp_events (targetOrg : AppDataOrganization)
    (t : Trace AddOnType) :
  exists evs,
    fst (EnsureShipperApp d r targetOrg t) = t ++ evs /\
    forallb (creates_app_named
               (AppDataOrganization_RawSlug targetOrg +:+ "-auto-log-shipper"))
            evs = true.
Proof.
  unfold EnsureShipperApp. unfold bind at 1. unfold call at 1.
  destruct (gql_GetAppsByRole r t _ _) as [appsResult [e|]]; cbv beta iota.
  { eexists. split; [reflexivity|reflexivity]. }
  destruct (GetAppsByRoleResponse_Apps_Nodes appsResult) as [|first rest].
  - cbn [length Nat.ltb Nat.leb].
    unfold LoggerAppName, set_Name, set_AppRoleId, set_OrganizationId,
      set_Machines. cbn [CreateAppInput_Machines CreateAppInput_OrganizationId
      CreateAppInput_AppRoleId CreateAppInput_Name].
    unfold bind at 1. unfold call at 1.
    destruct (gql_CreateApp r _ _) as [created [e|]].
    { eexists. split; [simpl; rewrite <- app_assoc; reflexivity|].
      simpl. now rewrite String.eqb_refl. }
    cbv beta iota zeta. unfold bind at 1.
    match goal with
    | |- context [EnsureShipperMachine d r ?a ?t0] =>
        destruct (EnsureShipperMachine_events a t0) as [evs [Hevs Hall]];
        destruct (EnsureShipperMachine d r a t0) as [t3 o]
    end.
    simpl in Hevs. subst t3.
    exists ([EvGetAppsByRole "log-shipper" (AppDataOrganization_Id targetOrg);
             EvCreateApp
               {| CreateAppInput_Machines := true;
                  CreateAppInput_OrganizationId :=
                    AppDataOrganization_Id targetOrg;
                  CreateAppInput_AppRoleId := "log-shipper";
                  CreateAppInput_Name :=
                    AppDataOrganization_RawSlug targetOrg
                      +:+ "-auto-log-shipper" |}] ++ evs).
    split.
    + destruct o as [[e|]|]; simpl; rewrite <- !app_assoc; reflexivity.
    + simpl. rewrite String.eqb_refl. simpl.
      apply (forallb_weaken is_machine_event); [|exact Hall].
      intros [] Ha; simpl in Ha; try discriminate; reflexivity.
  - run. eexists. split; [reflexivity|reflexivity].
Qed.

(** Every run of [SetNatsTokenSecret] on an app starts with the creation of
    the token [<org slug>-logs], and creates no other token. *)
Lemma SetNatsTokenSecret_events (shipperApp : AppData) (t : Trace AddOnType) :
  let name :=
    AppDataOrganization_Slug (AppData_Organization shipperApp) +:+ "-logs" in
  exists evs,
    fst (SetNatsTokenSecret r (Some shipperApp) t) =
      t ++ EvCreateLimitedAccessToken name
             (AppDataOrganization_Id (AppData_Organization shipperApp))
             "read_organization_apps" "" "" :: evs /\
    forallb (credential_named name) evs = true.
Proof.
  intros name. subst name. unfold SetNatsTokenSecret. run.
  destruct (gql_CreateLimitedAccessToken r t _ _ _ _ _) as [tok [e|]]; simpl.
  { eexists. split; [reflexivity|reflexivity]. }
  destruct (deploy_NewMachineDeployment r _ _) as [e|]; simpl.
  { eexists. split; [rewrite <- !app_assoc; reflexivity|reflexivity]. }
  eexists. split; [rewrite <- !app_assoc; reflexivity|reflexivity].
Qed.

(** C8. The three names are concatenations.  [LoggerAppName] appends
    ["-auto-log-shipper"] to its argument, and every app creation of
    [EnsureShipperApp] carries the organization's raw slug followed by
    ["-auto-log-shipper"]; [ProvisionAutoShipper] begins with the lookup of
    the target app's name followed by ["-log-shipper"], and every lookup and
    creation of an add-on in its run carries that name; [SetNatsTokenSecret]
    begins with the creation of the token named by the organization's slug
    followed by ["-logs"], and creates no token of another name. *)
Theorem names_are_concatenations :
  (forall prefix : string,
     LoggerAppName prefix = prefix +:+ "-auto-log-shipper") /\
  (forall (targetOrg : AppDataOrganization) (t : Trace AddOnType),
     forallb (creates_app_named
                (AppDataOrganization_RawSlug targetOrg +:+ "-auto-log-shipper"))
       (new_events t (fst (EnsureShipperApp d r targetOrg t))) = true) /\
  (forall (targetApp : AppData) (provider : string) (t : Trace AddOnType),
     let evs :=
       new_events t (fst (ProvisionAutoShipper d r targetApp provider t)) in
     head evs = Some (EvGetAddOn (AppData_Name targetApp +:+ "-log-shipper")) /\
     forallb (addon_named (AppData_Name targetApp +:+ "-log-shipper")) evs
       = true) /\
  (forall (shipperApp : AppData) (t : Trace AddOnType),
     let name :=
       AppDataOrganization_Slug (AppData_Organization shipperApp) +:+ "-logs" in
     let evs := new_events t (fst (SetNatsTokenSecret r (Some shipperApp) t)) in
     head evs =
       Some (EvCreateLimitedAccessToken name
               (AppDataOrganization_Id (AppData_Organization shipperApp))
               "read_organization_apps" "" "") /\
     forallb (credential_named name) evs = true).
Proof.
  split; [|split; [|split]].
  - reflexivity.
  - intros targetOrg t.
    destruct (EnsureShipperApp_events targetOrg t) as [evs [Hevs Hall]].
    rewrite Hevs, new_events_app. exact Hall.
  - intros targetApp provider t evs. subst evs.
    destruct (ProvisionAutoShipper_events targetApp provider t)
      as [evs [Hevs Hall]].
    rewrite Hevs, new_events_app. split; [reflexivity|].
    simpl. rewrite String.eqb_refl. exact Hall.
  - intros shipperApp t name evs. subst name evs.
    destruct (SetNatsTokenSecret_events shipperApp t) as [evs [Hevs Hall]].
    rewrite Hevs, new_events_app. split; [reflexivity|].
    simpl. rewrite String.eqb_refl. exact Hall.
Qed.

(** *** [SetNatsTokenSecret] *)

(** What [SetNatsTokenSecret] returns: the error of the token creation, else
    that of [NewMachineDeployment], else that of [DeployMachinesApp].  The
    answer to the secret write is not among them. *)
Lemma SetNatsTokenSecret_result (shipperApp : AppData) (t : Trace AddOnType) :
  let name :=
    AppDataOrganization_Slug (AppData_Organization shipperApp) +:+ "-logs" in
  let organizationId :=
    AppDataOrganization_Id (AppData_Organization shipperApp) in
  let args :=
    {| MachineDeploymentArgs_AppCompact := ToAppCompact shipperApp;
       MachineDeploymentArgs_RestartOnly := true;
       MachineDeploymentArgs_SkipHealthChecks := true |} in
  let t1 :=
    t ++ [EvCreateLimitedAccessToken name organizationId
            "read_organization_apps" "" ""] in
  let '(tokenResponse, tokenErr) :=
    gql_CreateLimitedAccessToken r t name organizationId
      "read_organization_apps" "" "" in
  let secrets :=
    {| SetSecretsInput_AppId := AppData_Id shipperApp;
       SetSecretsInput_Secrets :=
         [ {| SecretInput_Key := "NATS_TOKEN";
              SecretInput_Value :=
                CreateLimitedAccessTokenResponse_Token tokenResponse |} ] |} in
  let t2 := t1 ++ [EvSetSecrets secrets] in
  let t3 := t2 ++ [EvNewMachineDeployment args] in
  snd (SetNatsTokenSecret r (Some shipperApp) t) =
    Returns
      match tokenErr with
      | Some e => Some e
      | None =>
          match deploy_NewMachineDeployment r t2 args with
          | Some e => Some e
          | None => deploy_DeployMachinesApp r t3 args
          end
      end.
Proof.
  intros name organizationId args t1. subst name organizationId args t1.
  unfold SetNatsTokenSecret. run.
  destruct (gql_CreateLimitedAccessToken r t _ _ _ _ _) as [tok [e|]]; simpl.
  { reflexivity. }
  destruct (deploy_NewMachineDeployment r _ _) as [e|]; reflexivity.
Qed.

(** *** [runSetup] *)

(** [ProvisionAutoShipper] and [SetNatsTokenSecret] on an app return, they do
    not panic. *)
Lemma ProvisionAutoShipper_returns (targetApp : AppData) (provider : string)
    (t : Trace AddOnType) :
  exists res, snd (ProvisionAutoShipper d r targetApp provider t) = Returns res.
Proof.
  unfold ProvisionAutoShipper. unfold bind at 1. unfold call at 1.
  destruct (gql_GetAddOn r t _) as [resp [err|]]; cbv beta iota.
  - destruct (chain_has_List err) eqn:Hchain.
    + unfold bind at 1. unfold print at 1. unfold bind at 1.
      destruct (ProvisionAutoShipper_for_creates targetApp provider
                  (AppData_Name targetApp +:+ "-log-shipper") "" err
                  ((t ++ [EvGetAddOn
                            (AppData_Name targetApp +:+ "-log-shipper")])
                     ++ [EvOutput (PrintErrorType (Some err))]) Hchain)
        as [brk [_ Hfor]].
      rewrite Hfor.
      destruct (gql_CreateAddOn r _ _) as [created [e|]]; run; eauto.
    + run. rewrite ProvisionAutoShipper_for_exhausts by assumption.
      simpl. eauto.
  - run. eauto.
Qed.

Lemma SetNatsTokenSecret_returns (shipperApp : AppData) (t : Trace AddOnType) :
  exists res, snd (SetNatsTokenSecret r (Some shipperApp) t) = Returns res.
Proof.
  unfold SetNatsTokenSecret. run.
  destruct (gql_CreateLimitedAccessToken r t _ _ _ _ _) as [tok [e|]]; simpl;
    [eauto|].
  destruct (deploy_NewMachineDeployment r _ _) as [e|]; simpl; eauto.
Qed.

(** The end of [runSetup]: once [EnsureShipperApp] has returned an app, the
    run goes on with [EnsureShipperMachine] and then, whatever that returned,
    with [SetNatsTokenSecret]; the result is what [EnsureShipperMachine]
    returned. *)
Lemma runSetup_sets_secret_whatever_the_machine
    (ctx : context_Context) (t tA tM : Trace AddOnType)
    (appNameResponse : GetAppResponse) (providerIndex : Z)
    (provider : Provider) (shipperApp : AppData) (machineErr : option error) :
  let appName := appconfig_NameFromContext ctx in
  let targetApp := GetAppResponse_App_AppData appNameResponse in
  let t1 := t ++ [EvGetApp appName] in
  let t2 :=
    t1 ++ [EvSelect "Select a logging provider:" ""
             (map Provider_Name providers)] in
  let t3 :=
    if Provider_Auto provider
    then fst (ProvisionAutoShipper d r targetApp (Provider_Slug provider) t2)
    else t2 in
  gql_GetApp r t appName = (appNameResponse, None) ->
  prompt_Select r t1 "Select a logging provider:" ""
    (map Provider_Name providers) = (providerIndex, None) ->
  0 <= providerIndex ->
  providers !! Z.to_nat providerIndex = Some provider ->
  EnsureShipperApp d r (AppData_Organization targetApp) t3 =
    (tA, Returns (Some shipperApp, None)) ->
  EnsureShipperMachine d r (Some shipperApp) tA = (tM, Returns machineErr) ->
  runSetup d r ctx t =
    (fst (SetNatsTokenSecret r (Some shipperApp) tM), Returns machineErr).
Proof.
  intros appName targetApp t1 t2 t3 Happ Hsel Hge Hidx HA HM.
  subst appName targetApp t1 t2 t3.
  unfold runSetup. cbv zeta. cbv iota.
  unfold bind at 1. unfold call at 1. rewrite Happ. cbv beta iota.
  unfold bind at 1. unfold call at 1. rewrite Hsel. cbv beta iota.
  unfold index. apply Z.leb_le in Hge. rewrite Hge. rewrite Hidx.
  unfold bind at 1. unfold ret at 1. cbv beta iota.
  unfold bind at 1.
  assert (Hpre :
    (if Provider_Auto provider
     then bind (ret provider)
            (fun provider0 =>
               bind (ProvisionAutoShipper d r
                       (GetAppResponse_App_AppData appNameResponse)
                       (Provider_Slug provider0))
                    (fun _ => ret tt))
     else ret tt)
      ((t ++ [EvGetApp (appconfig_NameFromContext ctx)])
         ++ [EvSelect "Select a logging provider:" ""
               (map Provider_Name providers)]) =
    (if Provider_Auto provider
     then fst (ProvisionAutoShipper d r
                 (GetAppResponse_App_AppData appNameResponse)
                 (Provider_Slug provider)
                 ((t ++ [EvGetApp (appconfig_NameFromContext ctx)])
                    ++ [EvSelect "Select a logging provider:" ""
                          (map Provider_Name providers)]))
     else (t ++ [EvGetApp (appconfig_NameFromContext ctx)])
            ++ [EvSelect "Select a logging provider:" ""
                  (map Provider_Name providers)],
     Returns tt)).
  { destruct (Provider_Auto provider); [|reflexivity].
    unfold bind, ret.
    destruct (ProvisionAutoShipper_returns
                (GetAppResponse_App_AppData appNameResponse)
                (Provider_Slug provider)
                ((t ++ [EvGetApp (appconfig_NameFromContext ctx)])
                   ++ [EvSelect "Select a logging provider:" ""
                         (map Provider_Name providers)])) as [res Hres].
    destruct (ProvisionAutoShipper d r _ _ _) as [t' o].
    simpl in Hres. subst o. reflexivity. }
  rewrite <- !app_assoc in Hpre. rewrite <- !app_assoc.
  simpl in Hpre. simpl app.
  rewrite Hpre. clear Hpre. cbv beta iota.
  unfold bind at 1. rewrite <- !app_assoc in HA. simpl app in HA.
  rewrite HA. cbv beta iota.
  unfold bind at 1. rewrite HM. cbv beta iota.
  unfold bind at 1.
  destruct (SetNatsTokenSecret_returns shipperApp tM) as [res Hres].
  destruct (SetNatsTokenSecret r (Some shipperApp) tM) as [t' o].
  simpl in Hres. subst o. reflexivity.
Qed.

End Runs.

(** The witness of C5: the add-on of [web] exists. *)
Lemma ProvisionAutoShipper_reuses_addon_witness :
  ProvisionAutoShipper Scenario.decls Scenario.provisioned Scenario.web
    "logtail" [] =
    ([EvGetAddOn "web-log-shipper"; EvOutput (PrintErrorType None);
      EvOutput (PrintAlreadyProvisioned "acme")],
     Returns ("tok-existing", None)) /\
  none_issued (T:=string) is_CreateAddOn
    (new_events []
       [EvGetAddOn "web-log-shipper"; EvOutput (PrintErrorType None);
        EvOutput (PrintAlreadyProvisioned "acme")]) = true.
Proof.
  apply (ProvisionAutoShipper_reuses_addon string Scenario.decls
           Scenario.provisioned Scenario.web "logtail" []
           {| GetAddOnResponse_AddOn_Token := "tok-existing";
              GetAddOnResponse_AddOn_Organization_Slug := "acme" |}).
  reflexivity.
Defined.

(** The witness of C10: the lookup fails on the transport. *)
Lemma ProvisionAutoShipper_masks_other_errors_witness :
  chain_has_List Scenario.lookup_error = false /\
  ProvisionAutoShipper Scenario.decls Scenario.lookup_down Scenario.web
    "logtail" [] =
    ([EvGetAddOn "web-log-shipper";
      EvOutput (PrintErrorType (Some Scenario.lookup_error));
      EvOutput (PrintAlreadyProvisioned "")],
     Returns ("", None)).
Proof.
  split; [reflexivity|].
  apply (ProvisionAutoShipper_masks_other_errors string Scenario.decls
           Scenario.lookup_down Scenario.web "logtail" []
           Scenario.no_addon Scenario.lookup_error);
    reflexivity.
Defined.

(** The witness of the amended C3: [datadog] is not in [AddOnTypes], the
    add-on of [web] is absent and the remote side accepts the creation. *)
Lemma ProvisionAutoShipper_unmapped_slug_submits_zero_witness :
  AddOnTypes Scenario.decls !! "datadog" = None /\
  ProvisionAutoShipper Scenario.decls Scenario.fresh Scenario.web "datadog" [] =
    ([EvGetAddOn "web-log-shipper";
      EvOutput (PrintErrorType
                  (Some (wrapError "input:3: addOn"
                           (gqlerror_List ["Could not find AddOn"]))));
      EvOutput (PrintGqlError "Could not find AddOn");
      EvCreateAddOn
        {| CreateAddOnInput_OrganizationId := "org-1";
           CreateAddOnInput_Name := "web-log-shipper";
           CreateAddOnInput_AppId := "app-1";
           CreateAddOnInput_Type := "" |}],
     Returns ("tok-new", None)).
Proof.
  split; [reflexivity|].
  apply (ProvisionAutoShipper_unmapped_slug_submits_zero string Scenario.decls
           Scenario.fresh Scenario.web "datadog" [] Scenario.no_addon
           (wrapError "input:3: addOn"
              (gqlerror_List ["Could not find AddOn"])));
    reflexivity.
Defined.

(** C3 fails on the code: for the slug [datadog], absent from [AddOnTypes],
    the create mutation is submitted with the add-on type defaulted to the
    zero value, the remote side accepts it, and [ProvisionAutoShipper] returns
    the new token with a nil error. *)
Lemma unmapped_slug_not_rejected :
  ProvisionAutoShipper Scenario.decls Scenario.fresh Scenario.web "datadog" [] =
    ([EvGetAddOn "web-log-shipper";
      EvOutput (PrintErrorType
                  (Some (wrapError "input:3: addOn"
                           (gqlerror_List ["Could not find AddOn"]))));
      EvOutput (PrintGqlError "Could not find AddOn");
      EvCreateAddOn
        {| CreateAddOnInput_OrganizationId := "org-1";
           CreateAddOnInput_Name := "web-log-shipper";
           CreateAddOnInput_AppId := "app-1";
           CreateAddOnInput_Type := AddOnType_zero Scenario.decls |}],
     Returns ("tok-new", None)) /\
  ~ unmapped_slug_rejected Scenario.decls Scenario.fresh Scenario.web
      "datadog" [].
Proof.
  split; [reflexivity|].
  intros H. unfold unmapped_slug_rejected in H.
  specialize (H eq_refl _ _ _ eq_refl).
  destruct H as [H|H]; [now apply H | discriminate H].
Qed.

(** C2 on a failed lookup: the lookup of the add-on of [web] fails on the
    transport (no [gqlerror.List] on the chain of the error), and
    [ProvisionAutoShipper] prints "already provisioned" and returns the empty
    token of the failed response with a nil error; [runSetup] goes on and
    returns nil too. *)
Lemma ProvisionAutoShipper_lookup_down :
  gql_GetAddOn Scenario.lookup_down [] "web-log-shipper" =
    (Scenario.no_addon, Some Scenario.lookup_error) /\
  chain_has_List Scenario.lookup_error = false /\
  ProvisionAutoShipper Scenario.decls Scenario.lookup_down Scenario.web
    "logtail" [] =
    ([EvGetAddOn "web-log-shipper";
      EvOutput (PrintErrorType (Some Scenario.lookup_error));
      EvOutput (PrintAlreadyProvisioned "")],
     Returns ("", None)) /\
  snd (runSetup Scenario.decls Scenario.lookup_down Scenario.ctx []) =
    Returns None.
Proof. repeat split; reflexivity. Qed.

(** C4 on a refused secret write: the token is created, the write of
    [NATS_TOKEN] is refused, and [SetNatsTokenSecret] goes on to the redeploy
    and returns nil. *)
Lemma SetNatsTokenSecret_secrets_down :
  let t1 : Trace string :=
    [EvCreateLimitedAccessToken "acme-logs" "org-1" "read_organization_apps"
       "" ""] in
  let secrets :=
    {| SetSecretsInput_AppId := "app-2";
       SetSecretsInput_Secrets :=
         [ {| SecretInput_Key := "NATS_TOKEN";
              SecretInput_Value := "nats-1" |} ] |} in
  let args :=
    {| MachineDeploymentArgs_AppCompact := ToAppCompact Scenario.shipper;
       MachineDeploymentArgs_RestartOnly := true;
       MachineDeploymentArgs_SkipHealthChecks := true |} in
  gql_SetSecrets Scenario.secrets_down t1 secrets =
    Some (gqlerror_List ["Not authorized to set secrets"]) /\
  SetNatsTokenSecret Scenario.secrets_down (Some Scenario.shipper) [] =
    (t1 ++ [EvSetSecrets secrets; EvNewMachineDeployment args;
            EvDeployMachinesApp args],
     Returns None).
Proof. split; reflexivity. Qed.

(** C1 on a failing machine step: the shipper app of [acme] exists, the flaps
    client cannot be made, so [EnsureShipperMachine] returns an error; the
    same run of [runSetup] then calls [SetNatsTokenSecret], which creates a
    token, writes the secret and redeploys, and the run returns the error of
    [EnsureShipperMachine]. *)
Lemma runSetup_machine_down :
  let tA : Trace string :=
    [EvGetApp "web";
     EvSelect "Select a logging provider:" "" (map Provider_Name providers);
     EvGetAddOn "web-log-shipper";
     EvOutput (PrintErrorType None);
     EvOutput (PrintAlreadyProvisioned "acme");
     EvGetAppsByRole "log-shipper" "org-1"] in
  let tM := tA ++ [EvFlapsNew (ToAppCompact Scenario.shipper)] in
  let args :=
    {| MachineDeploymentArgs_AppCompact := ToAppCompact Scenario.shipper;
       MachineDeploymentArgs_RestartOnly := true;
       MachineDeploymentArgs_SkipHealthChecks := true |} in
  let tS :=
    tM ++ [EvCreateLimitedAccessToken "acme-logs" "org-1"
             "read_organization_apps" "" "";
           EvSetSecrets
             {| SetSecretsInput_AppId := "app-2";
                SetSecretsInput_Secrets :=
                  [ {| SecretInput_Key := "NATS_TOKEN";
                       SecretInput_Value := "nats-1" |} ] |};
           EvNewMachineDeployment args;
           EvDeployMachinesApp args] in
  EnsureShipperMachine Scenario.decls Scenario.machine_down
    (Some Scenario.shipper) tA =
    (tM, Returns (Some (errorString "flaps: connection refused"))) /\
  SetNatsTokenSecret Scenario.machine_down (Some Scenario.shipper) tM =
    (tS, Returns None) /\
  runSetup Scenario.decls Scenario.machine_down Scenario.ctx [] =
    (tS, Returns (Some (errorString "flaps: connection refused"))) /\
  existsb is_CreateLimitedAccessToken
    (fst (runSetup Scenario.decls Scenario.machine_down Scenario.ctx []))
    = true.
Proof. repeat split; reflexivity. Qed.

(** The general lemma on the same scenario. *)
Lemma runSetup_sets_secret_whatever_the_machine_witness :
  runSetup Scenario.decls Scenario.machine_down Scenario.ctx [] =
    (fst (SetNatsTokenSecret Scenario.machine_down (Some Scenario.shipper)
            [EvGetApp "web";
             EvSelect "Select a logging provider:" ""
               (map Provider_Name providers);
             EvGetAddOn "web-log-shipper";
             EvOutput (PrintErrorType None);
             EvOutput (PrintAlreadyProvisioned "acme");
             EvGetAppsByRole "log-shipper" "org-1";
             EvFlapsNew (ToAppCompact Scenario.shipper)]),
     Returns (Some (errorString "flaps: connection refused"))).
Proof.
  apply (runSetup_sets_secret_whatever_the_machine string Scenario.decls
           Scenario.machine_down Scenario.ctx []
           [EvGetApp "web";
            EvSelect "Select a logging provider:" ""
              (map Provider_Name providers);
            EvGetAddOn "web-log-shipper";
            EvOutput (PrintErrorType None);
            EvOutput (PrintAlreadyProvisioned "acme");
            EvGetAppsByRole "log-shipper" "org-1"]
           _
           {| GetAppResponse_App_AppData := Scenario.web |}
           Scenario.logtail_index
           {| Provider_Slug := "logtail"; Provider_Name := "Logtail";
              Provider_Auto := true;
              Provider_RequriedVars := [];
              Provider_OptionalVars := [] |}
           Scenario.shipper
           (Some (errorString "flaps: connection refused")));
    try reflexivity.
  unfold Scenario.logtail_index. lia.
Defined.

(** The witness of C6: the shipper app of [acme] has the machine [m-1]. *)
Lemma EnsureShipperMachine_existing_machine_witness :
  (0 < length [ {| Machine_ID := "m-1" |} ])%nat /\
  EnsureShipperMachine Scenario.decls Scenario.provisioned
    (Some Scenario.shipper) [] =
    ([EvFlapsNew (ToAppCompact Scenario.shipper);
      EvFlapsList (ToAppCompact Scenario.shipper) ""],
     Returns None).
Proof.
  split; [simpl; lia|].
  apply (EnsureShipperMachine_existing_machine string Scenario.decls
           Scenario.provisioned Scenario.shipper []
           [ {| Machine_ID := "m-1" |} ]);
    [reflexivity | reflexivity | simpl; lia].
Defined.

(** The witness of C9: the shipper app of [acme] has no machine yet and the
    nearest region is [ams]. *)
Lemma EnsureShipperMachine_launch_request_witness :
  flaps_List Scenario.fresh [EvFlapsNew (ToAppCompact Scenario.shipper)]
    (ToAppCompact Scenario.shipper) "" = ([], None) /\
  EnsureShipperMachine Scenario.decls Scenario.fresh (Some Scenario.shipper) [] =
    ([EvFlapsNew (ToAppCompact Scenario.shipper);
      EvFlapsList (ToAppCompact Scenario.shipper) "";
      EvGetNearestRegion;
      EvFlapsLaunch (ToAppCompact Scenario.shipper)
        {| LaunchMachineInput_Name := "log-shipper";
           LaunchMachineInput_Config :=
             {| MachineConfig_Guest :=
                  {| MachineGuest_CPUKind := "shared";
                     MachineGuest_CPUs := 1;
                     MachineGuest_MemoryMB := 256 |};
                MachineConfig_Image := "flyio/log-shipper:auto-a14aa63";
                MachineConfig_Metadata :=
                  {[ "fly_platform_version" := "v2";
                     "fly-managed-postgres" := "true";
                     "managed-by-fly-deploy" := "true" ]} |};
           LaunchMachineInput_Region := "ams" |};
      EvOutput (PrintLaunched "acme-auto-log-shipper" "ams")],
     Returns None).
Proof.
  split; [reflexivity|].
  apply (EnsureShipperMachine_launch_request string Scenario.decls
           Scenario.fresh Scenario.shipper []
           {| GetNearestRegionResponse_NearestRegion_Code := "ams" |});
    reflexivity.
Defined.


(* ===================================================================== *)
(** ** Further properties of the workflow *)
(* ===================================================================== *)

(** *** Rules for [emits] *)

Lemma emits_ret {T A : Type} (P : Event T -> Prop) (a : A) : emits P (ret a).
Proof. intros t. exists []. split; [now rewrite app_nil_r | constructor]. Qed.

Lemma emits_panic {T A : Type} (P : Event T -> Prop) :
  emits P (panic (A:=A)).
Proof. intros t. exists []. split; [now rewrite app_nil_r | constructor]. Qed.

Lemma emits_call {T A : Type} (P : Event T -> Prop) (ev : Event T)
    (answer : Trace T -> A) :
  P ev -> emits P (call ev answer).
Proof. intros H t. exists [ev]. split; [reflexivity | now constructor]. Qed.

Lemma emits_print {T : Type} (P : Event T -> Prop) (o : Output) :
  P (EvOutput o) -> emits P (print o).
Proof. intros H t. exists [EvOutput o]. split; [reflexivity | now constructor]. Qed.

Lemma emits_bind {T A B : Type} (P : Event T -> Prop) (c : M T A)
    (k : A -> M T B) :
  emits P c -> (forall a, emits P (k a)) -> emits P (bind c k).
Proof.
  intros Hc Hk t. unfold bind.
  destruct (Hc t) as [evs [Ht Hevs]].
  destruct (c t) as [t' [a|]]; simpl in Ht; subst t'.
  - destruct (Hk a (t ++ evs)) as [evs' [Ht' Hevs']].
    exists (evs ++ evs'). split.
    + rewrite Ht'. now rewrite app_assoc.
    + apply Forall_app. now split.
  - exists evs. now split.
Qed.

Lemma emits_weaken {T A : Type} (P Q : Event T -> Prop) (c : M T A) :
  (forall ev, P ev -> Q ev) -> emits P c -> emits Q c.
Proof.
  intros HPQ Hc t. destruct (Hc t) as [evs [Ht Hevs]].
  exists evs. split; [exact Ht|].
  eapply Forall_impl; [exact Hevs | exact HPQ].
Qed.

Lemma emits_for_range {T A : Type} (P : Event T -> Prop) (xs : list A)
    (f : A -> M T unit) :
  (forall x, emits P (f x)) -> emits P (for_range xs f).
Proof.
  intros Hf. induction xs as [|x xs IH]; simpl.
  - apply emits_ret.
  - apply emits_bind; [apply Hf | intros _; exact IH].
Qed.

Lemma emits_index {T A B : Type} (P : Event T -> Prop) (xs : list A) (i : Z)
    (k : A -> M T B) :
  (forall x, xs !! Z.to_nat i = Some x -> emits P (k x)) ->
  emits P (bind (index xs i) k).
Proof.
  intros Hk. unfold index. destruct (0 <=? i).
  - destruct (xs !! Z.to_nat i) as [x|] eqn:Hx.
    + intros t. unfold bind, ret. now apply Hk.
    + intros t. exists []. unfold bind, panic. simpl.
      split; [now rewrite app_nil_r | constructor].
  - intros t. exists []. unfold bind, panic. simpl.
    split; [now rewrite app_nil_r | constructor].
Qed.

Lemma emits_new_events {T A : Type} (P : Event T -> Prop) (c : M T A)
    (t : Trace T) :
  emits P c -> Forall P (new_events t (fst (c t))).
Proof.
  intros Hc. destruct (Hc t) as [evs [Ht Hevs]].
  rewrite Ht, new_events_app. exact Hevs.
Qed.

(** Take a run apart along its binds and case distinctions. *)
Ltac emits_steps :=
  repeat first
    [ apply emits_ret
    | apply emits_panic
    | apply emits_call
    | apply emits_print
    | apply emits_bind; [ | intros ? ]
    | match goal with
      | |- emits _ (match ?x with _ => _ end) => destruct x
      | |- emits _ (if ?b then _ else _) => destruct b
      end
    | progress cbv zeta ].

Section MoreRuns.

Variable AddOnType : Type.
Variable d : Decls AddOnType.
Variable r : Remote AddOnType.

Lemma emits_ProvisionAutoShipper_for (targetApp : AppData) (provider : string)
    (token : string) (err : error) :
  emits (addon_event targetApp (AddOnTypes_at d provider))
    (ProvisionAutoShipper_for d r targetApp provider
       (AppData_Name targetApp +:+ "-log-shipper") token err).
Proof.
  induction err as [errs | msg | msg inner IH]; simpl.
  - apply emits_bind.
    + apply emits_for_range. intros x. now apply emits_print.
    + intros _. emits_steps. reflexivity.
  - apply emits_ret.
  - exact IH.
Qed.

Lemma emits_ProvisionAutoShipper (targetApp : AppData) (provider : string) :
  emits (addon_event targetApp (AddOnTypes_at d provider))
    (ProvisionAutoShipper d r targetApp provider).
Proof.
  unfold ProvisionAutoShipper. cbv zeta.
  apply emits_bind; [now apply emits_call|]. intros [resp err].
  apply emits_bind; [now apply emits_print|]. intros _.
  apply emits_bind.
  - destruct err as [e|]; [apply emits_ProvisionAutoShipper_for | apply emits_ret].
  - intros ex. emits_steps; exact I.
Qed.

Lemma emits_EnsureShipperMachine (app : AppData) :
  emits (machine_event d app) (EnsureShipperMachine d r (Some app)).
Proof.
  unfold EnsureShipperMachine. emits_steps; simpl; auto.
Qed.

Lemma emits_EnsureShipperApp (targetOrg : AppDataOrganization) :
  emits (app_event d targetOrg) (EnsureShipperApp d r targetOrg).
Proof.
  unfold EnsureShipperApp.
  apply emits_bind; [apply emits_call; simpl; auto|]. intros [appsResult err].
  destruct err as [e|]; [apply emits_ret|].
  destruct (Nat.ltb 0 _).
  - apply emits_index. intros x _. apply emits_ret.
  - cbv zeta. apply emits_bind; [apply emits_call; reflexivity|].
    intros [created err']. destruct err' as [e|]; [apply emits_ret|].
    cbv zeta. apply emits_bind.
    + eapply emits_weaken; [|apply emits_EnsureShipperMachine].
      intros ev Hev.
      destruct ev; try contradiction;
        exists (CreateAppResponse_CreateApp_App_AppData created); exact Hev.
    + intros a. emits_steps.
Qed.

Lemma emits_SetNatsTokenSecret (app : AppData) :
  emits (secret_event app) (SetNatsTokenSecret r (Some app)).
Proof.
  unfold SetNatsTokenSecret. emits_steps; simpl; eauto 6.
Qed.

(** *** The tables *)

(** The one provider of [providers] that is provisioned automatically is
    [logtail]. *)
Lemma providers_auto_is_logtail (n : nat) (p : Provider) :
  providers !! n = Some p -> Provider_Auto p = true ->
  Provider_Slug p = "logtail".
Proof.
  intros Hn Hauto.
  do 15 (destruct n as [|n];
         [simpl in Hn; injection Hn as <-; simpl in Hauto;
          first [discriminate Hauto | reflexivity] |]).
  discriminate Hn.
Qed.

(** [AddOnTypes[provider]] for every key: the two entries, and the zero
    value of [AddOnType] for any other slug. *)
Lemma AddOnTypes_at_cases (provider : string) :
  AddOnTypes_at d provider =
    if String.eqb provider "logtail" then AddOnTypeLogtail d
    else if String.eqb provider "upstash_redis" then AddOnTypeUpstashRedis d
    else AddOnType_zero d.
Proof.
  unfold AddOnTypes_at, AddOnTypes.
  destruct (String.eqb_spec provider "logtail") as [->|Hl].
  - now rewrite lookup_insert_eq.
  - rewrite lookup_insert_ne by congruence.
    destruct (String.eqb_spec provider "upstash_redis") as [->|Hu].
    + now rewrite lookup_singleton_eq.
    + now rewrite lookup_singleton_ne by congruence.
Qed.

(** *** The calls of [runSetup] *)

Lemma emits_runSetup (ctx : context_Context) :
  emits (setup_event d ctx) (runSetup d r ctx).
Proof.
  unfold runSetup. cbv zeta. cbv iota.
  apply emits_bind; [now apply emits_call|]. intros [appNameResponse err].
  destruct err as [e|]; [apply emits_ret|].
  apply emits_bind; [apply emits_call; simpl; auto|].
  intros [providerIndex err].
  destruct err as [e|]; [apply emits_ret|].
  apply emits_index. intros provider Hprovider.
  apply emits_bind.
  { destruct (Provider_Auto provider) eqn:Hauto; [|apply emits_ret].
    apply emits_index. intros provider' Hprovider'.
    assert (provider' = provider) as -> by congruence.
    apply emits_bind; [|intros _; apply emits_ret].
    eapply emits_weaken; [|apply emits_ProvisionAutoShipper].
    rewrite (providers_auto_is_logtail _ _ Hprovider Hauto).
    rewrite AddOnTypes_at_cases. simpl.
    intros ev Hev. destruct ev; try contradiction; simpl; eauto. }
  intros _.
  apply emits_bind.
  { eapply emits_weaken; [|apply emits_EnsureShipperApp].
    intros ev Hev. destruct ev; try contradiction; simpl; eauto;
      destruct Hev as [app Hev]; contradiction. }
  intros [shipperApp err].
  destruct err as [e|]; [apply emits_ret|].
  destruct shipperApp as [app|].
  2: { intros t. exists []. unfold bind, EnsureShipperMachine, panic. simpl.
       split; [now rewrite app_nil_r | constructor]. }
  apply emits_bind.
  { eapply emits_weaken; [|apply emits_EnsureShipperMachine].
    intros ev Hev. destruct ev; try contradiction; simpl; eauto. }
  intros err. apply emits_bind; [|intros _; apply emits_ret].
  eapply emits_weaken; [|apply emits_SetNatsTokenSecret].
  intros ev Hev. destruct ev; try contradiction; simpl; eauto.
Qed.

(** X1. In every run of [runSetup], on any remote side and whatever the
    prompt answers, every create-add-on mutation carries the add-on type
    [AddOnTypeLogtail]: the only provider of [providers] with [Auto] set is
    [logtail], and [AddOnTypes] has an entry for it, so the zero type never
    leaves [runSetup]. *)
Theorem runSetup_addon_type_is_logtail (ctx : context_Context)
    (t : Trace AddOnType) :
  Forall
    (fun ev =>
       match ev with
       | EvCreateAddOn input =>
           CreateAddOnInput_Type input = AddOnTypeLogtail d
       | _ => True
       end)
    (new_events t (fst (runSetup d r ctx t))).
Proof.
  eapply Forall_impl; [apply emits_new_events, emits_runSetup|].
  intros ev Hev. destruct ev; try exact I.
  destruct Hev as [targetApp Hev]. simpl in Hev. now subst input.
Qed.

(** X2. In every run of [runSetup], every app creation asks for a machines
    app with role ["log-shipper"], and every machine launch carries the name
    ["log-shipper"] and the fixed configuration (shared CPU, 1 CPU, 256 MB,
    the pinned image, the three metadata tags). *)
Theorem runSetup_creations_are_fixed (ctx : context_Context)
    (t : Trace AddOnType) :
  Forall
    (fun ev =>
       match ev with
       | EvCreateApp input =>
           CreateAppInput_Machines input = true /\
           CreateAppInput_AppRoleId input = "log-shipper"
       | EvFlapsLaunch _ input =>
           LaunchMachineInput_Name input = "log-shipper" /\
           LaunchMachineInput_Config input = machineConf d
       | _ => True
       end)
    (new_events t (fst (runSetup d r ctx t))).
Proof.
  eapply Forall_impl; [apply emits_new_events, emits_runSetup|].
  intros ev Hev. destruct ev; try exact I.
  - destruct Hev as [targetOrg Hev]. simpl in Hev. now subst input.
  - destruct Hev as [app [_ Hev]]. exact Hev.
Qed.

(** X3. In every run of [runSetup], every access token is created with the
    profile ["read_organization_apps"] and empty parameters and expiry, every
    secret write sets the single secret [NATS_TOKEN], and every deployment is
    restart-only with health checks skipped. *)
Theorem runSetup_credential_calls (ctx : context_Context)
    (t : Trace AddOnType) :
  Forall
    (fun ev =>
       match ev with
       | EvCreateLimitedAccessToken _ _ profile params expiry =>
           profile = "read_organization_apps" /\ params = "" /\ expiry = ""
       | EvSetSecrets input =>
           map SecretInput_Key (SetSecretsInput_Secrets input) = ["NATS_TOKEN"]
       | EvNewMachineDeployment args | EvDeployMachinesApp args =>
           MachineDeploymentArgs_RestartOnly args = true /\
           MachineDeploymentArgs_SkipHealthChecks args = true
       | _ => True
       end)
    (new_events t (fst (runSetup d r ctx t))).
Proof.
  eapply Forall_impl; [apply emits_new_events, emits_runSetup|].
  intros ev Hev. destruct ev; try exact I.
  - destruct Hev as [app (_ & _ & H1 & H2 & H3)]. now repeat split.
  - destruct Hev as [app [_ [value Hev]]]. now rewrite Hev.
  - destruct Hev as [app Hev]. simpl in Hev. now subst args.
  - destruct Hev as [app Hev]. simpl in Hev. now subst md.
Qed.

(** *** More on [ProvisionAutoShipper] *)

Lemma count_events_app {T : Type} (p : Event T -> bool) (a b : Trace T) :
  count_events p (a ++ b) = (count_events p a + count_events p b)%nat.
Proof. unfold count_events. now rewrite List.filter_app, length_app. Qed.

Lemma count_events_prints {T : Type} (p : Event T -> bool)
    (xs : list gqlerror_Error) :
  (forall o, p (EvOutput o) = false) ->
  count_events p (map (fun gqlErr => EvOutput (PrintGqlError gqlErr)) xs) = 0%nat.
Proof.
  intros Hp. unfold count_events.
  induction xs as [|x xs IH]; simpl; [reflexivity|]. now rewrite Hp.
Qed.

(** The three ways a run of [ProvisionAutoShipper] can go. *)
Lemma ProvisionAutoShipper_run (targetApp : AppData) (provider : string)
    (t : Trace AddOnType) :
  let addOnName := AppData_Name targetApp +:+ "-log-shipper" in
  let input :=
    {| CreateAddOnInput_OrganizationId :=
         AppDataOrganization_Id (AppData_Organization targetApp);
       CreateAddOnInput_Name := addOnName;
       CreateAddOnInput_AppId := AppData_Id targetApp;
       CreateAddOnInput_Type := AddOnTypes_at d provider |} in
  ProvisionAutoShipper d r targetApp provider t =
    match gql_GetAddOn r t addOnName with
    | (getAddOnResponse, None) =>
        (t ++ [EvGetAddOn addOnName; EvOutput (PrintErrorType None);
               EvOutput (PrintAlreadyProvisioned
                           (GetAddOnResponse_AddOn_Organization_Slug
                              getAddOnResponse))],
         Returns (GetAddOnResponse_AddOn_Token getAddOnResponse, None))
    | (getAddOnResponse, Some err) =>
        if chain_has_List err then
          let t1 :=
            t ++ [EvGetAddOn addOnName; EvOutput (PrintErrorType (Some err))]
              ++ map (fun gqlErr => EvOutput (PrintGqlError gqlErr))
                     (chain_first_List err) in
          (t1 ++ [EvCreateAddOn input],
           Returns
             match gql_CreateAddOn r t1 input with
             | (_, Some e) => ("", Some e)
             | (createAddOnResponse, None) =>
                 (CreateAddOnResponse_CreateAddOn_AddOn_Token
                    createAddOnResponse, None)
             end)
        else
          (t ++ [EvGetAddOn addOnName; EvOutput (PrintErrorType (Some err));
                 EvOutput (PrintAlreadyProvisioned
                             (GetAddOnResponse_AddOn_Organization_Slug
                                getAddOnResponse))],
           Returns (GetAddOnResponse_AddOn_Token getAddOnResponse, None))
    end.
Proof.
  intros addOnName input. subst addOnName input.
  unfold ProvisionAutoShipper. unfold bind at 1. unfold call at 1.
  destruct (gql_GetAddOn r t _) as [resp [err|]]; cbv beta iota.
  - destruct (chain_has_List err) eqn:Hchain.
    + unfold bind at 1. unfold print at 1. unfold bind at 1.
      destruct (ProvisionAutoShipper_for_creates AddOnType d r targetApp
                  provider (AppData_Name targetApp +:+ "-log-shipper") "" err
                  ((t ++ [EvGetAddOn
                            (AppData_Name targetApp +:+ "-log-shipper")])
                     ++ [EvOutput (PrintErrorType (Some err))]) Hchain)
        as [brk [_ Hfor]].
      rewrite Hfor. clear Hfor. cbv zeta.
      rewrite <- !app_assoc. simpl app.
      destruct (gql_CreateAddOn r _ _) as [created [e|]]; reflexivity.
    + run. rewrite ProvisionAutoShipper_for_exhausts by assumption.
      simpl. now rewrite <- !app_assoc.
  - run. now rewrite <- !app_assoc.
Qed.

(** X4. Creation on absence.  When the lookup fails with an error that has a
    [gqlerror.List] on its unwrap chain, however deep, [ProvisionAutoShipper]
    submits exactly one create mutation, for the organization and the id of
    the target app, under the name [<app-name>-log-shipper], with the type
    that [AddOnTypes] has for the provider; it returns the created add-on's
    token with a nil error, or the empty token with the mutation's error. *)
Theorem ProvisionAutoShipper_creates_on_absence
    (targetApp : AppData) (provider : string) (t : Trace AddOnType)
    (getAddOnResponse : GetAddOnResponse) (err : error) :
  gql_GetAddOn r t (AppData_Name targetApp +:+ "-log-shipper") =
    (getAddOnResponse, Some err) ->
  chain_has_List err = true ->
  let addOnName := AppData_Name targetApp +:+ "-log-shipper" in
  let input :=
    {| CreateAddOnInput_OrganizationId :=
         AppDataOrganization_Id (AppData_Organization targetApp);
       CreateAddOnInput_Name := addOnName;
       CreateAddOnInput_AppId := AppData_Id targetApp;
       CreateAddOnInput_Type := AddOnTypes_at d provider |} in
  let t1 :=
    t ++ [EvGetAddOn addOnName; EvOutput (PrintErrorType (Some err))]
      ++ map (fun gqlErr => EvOutput (PrintGqlError gqlErr))
             (chain_first_List err) in
  ProvisionAutoShipper d r targetApp provider t =
    (t1 ++ [EvCreateAddOn input],
     Returns
       match gql_CreateAddOn r t1 input with
       | (_, Some e) => ("", Some e)
       | (createAddOnResponse, None) =>
           (CreateAddOnResponse_CreateAddOn_AddOn_Token createAddOnResponse,
            None)
       end) /\
  count_events is_CreateAddOn
    (new_events t (fst (ProvisionAutoShipper d r targetApp provider t))) = 1%nat.
Proof.
  intros H Hchain addOnName input t1. subst addOnName input t1.
  rewrite ProvisionAutoShipper_run. rewrite H, Hchain. cbv zeta.
  split; [reflexivity|]. cbn [fst].
  rewrite <- !app_assoc. rewrite new_events_app.
  rewrite !count_events_app. rewrite count_events_prints by reflexivity.
  reflexivity.
Qed.

(** X5. The only error that [ProvisionAutoShipper] ever returns is the one
    of the create mutation: when it returns a non-nil error, the token is
    empty, the lookup had failed with a [gqlerror.List] on the chain of its
    error, and the last call of the run is a create mutation that was
    answered with that error. *)
Theorem ProvisionAutoShipper_error_is_from_creation
    (targetApp : AppData) (provider : string) (t t' : Trace AddOnType)
    (token : string) (e : error) :
  ProvisionAutoShipper d r targetApp provider t = (t', Returns (token, Some e)) ->
  token = "" /\
  (exists getAddOnResponse err,
     gql_GetAddOn r t (AppData_Name targetApp +:+ "-log-shipper") =
       (getAddOnResponse, Some err) /\
     chain_has_List err = true) /\
  exists t1 input,
    t' = t1 ++ [EvCreateAddOn input] /\
    snd (gql_CreateAddOn r t1 input) = Some e.
Proof.
  rewrite ProvisionAutoShipper_run. cbv zeta.
  destruct (gql_GetAddOn r t _) as [resp [err|]]; [|intros H; discriminate H].
  destruct (chain_has_List err) eqn:Hchain; [|intros H; discriminate H].
  intros H. injection H as Ht Hres. subst t'.
  destruct (gql_CreateAddOn r _ _) as [created [e'|]] eqn:Hcreate;
    [|discriminate Hres].
  injection Hres as <- <-.
  split; [reflexivity|]. split; [eauto|].
  eexists. eexists. split; [reflexivity|]. now rewrite Hcreate.
Qed.

(** X6. Every run of [ProvisionAutoShipper] returns (it does not panic),
    looks the add-on up exactly once and submits at most one create
    mutation. *)
Theorem ProvisionAutoShipper_one_lookup_one_creation
    (targetApp : AppData) (provider : string) (t : Trace AddOnType) :
  let evs :=
    new_events t (fst (ProvisionAutoShipper d r targetApp provider t)) in
  (exists res, snd (ProvisionAutoShipper d r targetApp provider t) = Returns res)
  /\ count_events is_GetAddOn evs = 1%nat
  /\ (count_events is_CreateAddOn evs <= 1)%nat.
Proof.
  intros evs. subst evs.
  rewrite ProvisionAutoShipper_run. cbv zeta.
  destruct (gql_GetAddOn r t _) as [resp [err|]].
  - destruct (chain_has_List err).
    + cbn [fst snd]. split; [eauto|].
      rewrite <- !app_assoc. rewrite new_events_app.
      rewrite !count_events_app.
      rewrite !count_events_prints by reflexivity.
      unfold count_events. simpl. split; lia.
    + cbn [fst snd]. rewrite new_events_app. split; [eauto|].
      unfold count_events. simpl. split; lia.
  - cbn [fst snd]. rewrite new_events_app. split; [eauto|].
    unfold count_events. simpl. split; lia.
Qed.

(** X7. The two tables agree: [AddOnTypes] has an entry exactly for the
    slugs ["logtail"] and ["upstash_redis"], and every provider of
    [providers] with [Auto] set has an entry. *)
Theorem AddOnTypes_covers_auto_providers :
  (forall slug : string,
     AddOnTypes d !! slug = None <->
     slug <> "logtail" /\ slug <> "upstash_redis") /\
  Forall
    (fun p => Provider_Auto p = true -> is_Some (AddOnTypes d !! Provider_Slug p))
    providers.
Proof.
  split.
  - intros slug. unfold AddOnTypes. split.
    + intros H. split; intros ->.
      * now rewrite lookup_insert_eq in H.
      * rewrite lookup_insert_ne in H by discriminate.
        now rewrite lookup_singleton_eq in H.
    + intros [Hl Hu]. rewrite lookup_insert_ne by congruence.
      now rewrite lookup_singleton_ne by congruence.
  - apply Forall_forall. intros p Hp Hauto.
    apply (proj1 (list_elem_of_lookup _ _)) in Hp. destruct Hp as [n Hn].
    rewrite (providers_auto_is_logtail n p Hn Hauto).
    unfold AddOnTypes. rewrite lookup_insert_eq. eauto.
Qed.

(** *** More on [EnsureShipperMachine] *)

(** The ways a run of [EnsureShipperMachine] on an app can go. *)
Lemma EnsureShipperMachine_run (shipperApp : AppData) (t : Trace AddOnType) :
  let flapsClient := ToAppCompact shipperApp in
  let t1 := t ++ [EvFlapsNew flapsClient] in
  let t2 := t ++ [EvFlapsNew flapsClient; EvFlapsList flapsClient ""] in
  let t3 :=
    t ++ [EvFlapsNew flapsClient; EvFlapsList flapsClient "";
          EvGetNearestRegion] in
  EnsureShipperMachine d r (Some shipperApp) t =
    match flaps_New r t flapsClient with
    | Some e => (t1, Returns (Some e))
    | None =>
        match flaps_List r t1 flapsClient "" with
        | (_, Some e) => (t2, Returns (Some e))
        | (machines, None) =>
            if Nat.ltb 0 (length machines) then (t2, Returns None)
            else
              match gql_GetNearestRegion r t2 with
              | (_, Some e) => (t3, Returns (Some e))
              | (regionResponse, None) =>
                  let launchInput :=
                    {| LaunchMachineInput_Name := "log-shipper";
                       LaunchMachineInput_Config := machineConf d;
                       LaunchMachineInput_Region :=
                         GetNearestRegionResponse_NearestRegion_Code
                           regionResponse |} in
                  match snd (flaps_Launch r t3 flapsClient launchInput) with
                  | Some e =>
                      (t3 ++ [EvFlapsLaunch flapsClient launchInput],
                       Returns (Some e))
                  | None =>
                      (t3 ++ [EvFlapsLaunch flapsClient launchInput;
                              EvOutput
                                (PrintLaunched (AppData_Name shipperApp)
                                   (GetNearestRegionResponse_NearestRegion_Code
                                      regionResponse))],
                       Returns None)
                  end
              end
        end
    end.
Proof.
  intros flapsClient t1 t2 t3. subst flapsClient t1 t2 t3.
  unfold EnsureShipperMachine, machineConf. run.
  destruct (flaps_New r t _) as [e|]; simpl; [reflexivity|].
  destruct (flaps_List r _ _ _) as [machines [e|]]; simpl;
    [rewrite <- ?app_assoc; reflexivity|].
  destruct machines as [|m ms]; simpl; [|rewrite <- ?app_assoc; reflexivity].
  rewrite <- ?app_assoc. simpl.
  destruct (gql_GetNearestRegion r _) as [region [e|]]; simpl;
    [rewrite <- ?app_assoc; reflexivity|].
  rewrite <- ?app_assoc. simpl.
  destruct (flaps_Launch r _ _ _) as [m [e|]]; simpl;
    rewrite <- ?app_assoc; reflexivity.
Qed.

(** X8. When [EnsureShipperMachine] returns nil on an app, a machine is
    there as far as the remote side said: either the listing of this run
    returned one or more machines (and nothing was launched), or the listing
    was empty and the run ends with a launch that was answered without error
    and the line that reports it. *)
Theorem EnsureShipperMachine_success_means_machine
    (shipperApp : AppData) (t t' : Trace AddOnType) :
  EnsureShipperMachine d r (Some shipperApp) t = (t', Returns None) ->
  let flapsClient := ToAppCompact shipperApp in
  (exists machines,
     flaps_List r (t ++ [EvFlapsNew flapsClient]) flapsClient "" =
       (machines, None) /\
     (0 < length machines)%nat /\
     count_events is_FlapsLaunch (new_events t t') = 0%nat) \/
  (exists t3 launchInput region,
     flaps_List r (t ++ [EvFlapsNew flapsClient]) flapsClient "" = ([], None) /\
     t' = t3 ++ [EvFlapsLaunch flapsClient launchInput;
                 EvOutput (PrintLaunched (AppData_Name shipperApp) region)] /\
     LaunchMachineInput_Region launchInput = region /\
     snd (flaps_Launch r t3 flapsClient launchInput) = None).
Proof.
  rewrite EnsureShipperMachine_run. cbv zeta.
  destruct (flaps_New r t _) as [e|]; [intros H; discriminate H|].
  destruct (flaps_List r _ _ _) as [machines [e|]]; [intros H; discriminate H|].
  destruct machines as [|m ms]; cbn [length Nat.ltb Nat.leb].
  - destruct (gql_GetNearestRegion r _) as [region [e|]];
      [intros H; discriminate H|].
    destruct (snd (flaps_Launch r _ _ _)) as [e|] eqn:Hlaunch;
      [intros H; discriminate H|].
    intros H. injection H as <-. right.
    eexists. eexists. eexists. split; [reflexivity|].
    split; [reflexivity|]. split; [reflexivity | exact Hlaunch].
  - intros H. injection H as <-. left. exists (m :: ms).
    split; [reflexivity|]. split; [simpl; lia|].
    now rewrite new_events_app.
Qed.

(** X9. When region discovery fails, [EnsureShipperMachine] returns its
    error and launches nothing. *)
Theorem EnsureShipperMachine_region_failure
    (shipperApp : AppData) (t : Trace AddOnType)
    (regionResponse : GetNearestRegionResponse) (e : error) :
  let flapsClient := ToAppCompact shipperApp in
  let t' :=
    t ++ [EvFlapsNew flapsClient; EvFlapsList flapsClient "";
          EvGetNearestRegion] in
  flaps_New r t flapsClient = None ->
  flaps_List r (t ++ [EvFlapsNew flapsClient]) flapsClient "" = ([], None) ->
  gql_GetNearestRegion r
    (t ++ [EvFlapsNew flapsClient; EvFlapsList flapsClient ""]) =
    (regionResponse, Some e) ->
  EnsureShipperMachine d r (Some shipperApp) t = (t', Returns (Some e)) /\
  count_events is_FlapsLaunch (new_events t t') = 0%nat.
Proof.
  intros flapsClient t' Hnew Hlist Hregion. subst flapsClient t'.
  rewrite EnsureShipperMachine_run. cbv zeta.
  rewrite Hnew, Hlist. cbn [length Nat.ltb Nat.leb]. rewrite Hregion.
  split; [reflexivity | now rewrite new_events_app].
Qed.

(** X10. When the listing comes back with an error, [EnsureShipperMachine]
    returns that error after two calls, whatever machines came with it: it
    neither takes them for existing ones nor launches one. *)
Theorem EnsureShipperMachine_listing_failure
    (shipperApp : AppData) (t : Trace AddOnType)
    (machines : list Machine) (e : error) :
  let flapsClient := ToAppCompact shipperApp in
  flaps_New r t flapsClient = None ->
  flaps_List r (t ++ [EvFlapsNew flapsClient]) flapsClient "" =
    (machines, Some e) ->
  EnsureShipperMachine d r (Some shipperApp) t =
    (t ++ [EvFlapsNew flapsClient; EvFlapsList flapsClient ""],
     Returns (Some e)).
Proof.
  intros flapsClient Hnew Hlist. subst flapsClient.
  rewrite EnsureShipperMachine_run. cbv zeta.
  now rewrite Hnew, Hlist.
Qed.

(** X11. Every run of [EnsureShipperMachine] on an app returns (no panic),
    and its calls are, in this order, a beginning of: making the flaps
    client, the listing, region discovery, one launch, the report line.  So
    it asks for the region at most once and launches at most one machine,
    and a launch comes only after the region was asked for, right after
    it, in the region of the launch request. *)
Theorem EnsureShipperMachine_at_most_one_launch
    (shipperApp : AppData) (t : Trace AddOnType) :
  let evs := new_events t (fst (EnsureShipperMachine d r (Some shipperApp) t)) in
  let flapsClient := ToAppCompact shipperApp in
  (exists err,
     snd (EnsureShipperMachine d r (Some shipperApp) t) = Returns err) /\
  (count_events is_FlapsLaunch evs <= count_events is_GetNearestRegion evs)%nat
  /\ (count_events is_GetNearestRegion evs <= 1)%nat
  /\ exists (launchInput : LaunchMachineInput) (n : nat),
       (1 <= n <= 5)%nat /\
       evs =
         take n
           [EvFlapsNew flapsClient; EvFlapsList flapsClient "";
            EvGetNearestRegion; EvFlapsLaunch flapsClient launchInput;
            EvOutput (PrintLaunched (AppData_Name shipperApp)
                        (LaunchMachineInput_Region launchInput))].
Proof.
  intros evs flapsClient. subst evs flapsClient.
  rewrite EnsureShipperMachine_run. cbv zeta.
  set (none :=
         {| LaunchMachineInput_Name := "log-shipper";
            LaunchMachineInput_Config := machineConf d;
            LaunchMachineInput_Region := "" |}).
  destruct (flaps_New r t _) as [e|].
  { cbn [fst snd]. rewrite new_events_app. split; [eauto|].
    split; [unfold count_events; simpl; lia|].
    split; [unfold count_events; simpl; lia|].
    exists none, 1%nat. split; [lia | reflexivity]. }
  destruct (flaps_List r _ _ _) as [machines [e|]].
  { cbn [fst snd]. rewrite new_events_app. split; [eauto|].
    split; [unfold count_events; simpl; lia|].
    split; [unfold count_events; simpl; lia|].
    exists none, 2%nat. split; [lia | reflexivity]. }
  destruct (Nat.ltb 0 (length machines)).
  { cbn [fst snd]. rewrite new_events_app. split; [eauto|].
    split; [unfold count_events; simpl; lia|].
    split; [unfold count_events; simpl; lia|].
    exists none, 2%nat. split; [lia | reflexivity]. }
  destruct (gql_GetNearestRegion r _) as [region [e|]].
  { cbn [fst snd]. rewrite new_events_app. split; [eauto|].
    split; [unfold count_events; simpl; lia|].
    split; [unfold count_events; simpl; lia|].
    exists none, 3%nat. split; [lia | reflexivity]. }
  destruct (snd (flaps_Launch r _ _ _)) as [e|];
    cbn [fst snd]; rewrite <- app_assoc, new_events_app; (split; [eauto|]);
    (split; [unfold count_events; simpl; lia|]);
    (split; [unfold count_events; simpl; lia|]).
  - match goal with
    | |- context [EvFlapsLaunch _ ?i] => exists i, 4%nat
    end.
    split; [lia | reflexivity].
  - match goal with
    | |- context [EvFlapsLaunch _ ?i] => exists i, 5%nat
    end.
    split; [lia | reflexivity].
Qed.

(** *** More on [EnsureShipperApp] *)

Lemma EnsureShipperMachine_never_panics (shipperApp : AppData)
    (t : Trace AddOnType) :
  exists err, snd (EnsureShipperMachine d r (Some shipperApp) t) = Returns err.
Proof.
  rewrite EnsureShipperMachine_run. cbv zeta.
  destruct (flaps_New r t _) as [e|]; [simpl; eauto|].
  destruct (flaps_List r _ _ _) as [machines [e|]]; [simpl; eauto|].
  destruct (Nat.ltb 0 (length machines)); [simpl; eauto|].
  destruct (gql_GetNearestRegion r _) as [region [e|]]; [simpl; eauto|].
  destruct (snd (flaps_Launch r _ _ _)) as [e|]; simpl; eauto.
Qed.

(** The ways a run of [EnsureShipperApp] can go. *)
Lemma EnsureShipperApp_run (targetOrg : AppDataOrganization)
    (t : Trace AddOnType) :
  let t1 :=
    t ++ [EvGetAppsByRole "log-shipper" (AppDataOrganization_Id targetOrg)] in
  let input :=
    {| CreateAppInput_Machines := true;
       CreateAppInput_OrganizationId := AppDataOrganization_Id targetOrg;
       CreateAppInput_AppRoleId := "log-shipper";
       CreateAppInput_Name :=
         AppDataOrganization_RawSlug targetOrg +:+ "-auto-log-shipper" |} in
  let t2 := t1 ++ [EvCreateApp input] in
  EnsureShipperApp d r targetOrg t =
    match gql_GetAppsByRole r t "log-shipper"
            (AppDataOrganization_Id targetOrg) with
    | (_, Some e) => (t1, Returns (None, Some e))
    | (appsResult, None) =>
        match GetAppsByRoleResponse_Apps_Nodes appsResult with
        | first :: _ => (t1, Returns (Some first, None))
        | [] =>
            match gql_CreateApp r t1 input with
            | (_, Some e) => (t2, Returns (None, Some e))
            | (createdAppResult, None) =>
                let shipperApp :=
                  CreateAppResponse_CreateApp_App_AppData createdAppResult in
                match EnsureShipperMachine d r (Some shipperApp) t2 with
                | (t3, Returns None) => (t3, Returns (Some shipperApp, None))
                | (t3, Returns (Some e)) => (t3, Returns (None, Some e))
                | (t3, Panics) => (t3, Panics)
                end
            end
        end
    end.
Proof.
  intros t1 input t2. subst t1 input t2.
  unfold EnsureShipperApp. unfold bind at 1. unfold call at 1.
  destruct (gql_GetAppsByRole r t _ _) as [appsResult [e|]]; cbv beta iota;
    [reflexivity|].
  destruct (GetAppsByRoleResponse_Apps_Nodes appsResult) as [|first rest].
  - cbn [length Nat.ltb Nat.leb].
    unfold LoggerAppName, set_Name, set_AppRoleId, set_OrganizationId,
      set_Machines. cbn [CreateAppInput_Machines CreateAppInput_OrganizationId
      CreateAppInput_AppRoleId CreateAppInput_Name].
    unfold bind at 1. unfold call at 1.
    destruct (gql_CreateApp r _ _) as [created [e|]]; [reflexivity|].
    cbv beta iota zeta. unfold bind at 1.
    destruct (EnsureShipperMachine d r _ _) as [t3 [[e|]|]]; reflexivity.
  - reflexivity.
Qed.

Lemma EnsureShipperApp_app_or_error_aux (targetOrg : AppDataOrganization)
    (t : Trace AddOnType) :
  match snd (EnsureShipperApp d r targetOrg t) with
  | Returns (Some _, None) | Returns (None, Some _) => True
  | _ => False
  end.
Proof.
  rewrite EnsureShipperApp_run. cbv zeta.
  destruct (gql_GetAppsByRole r t _ _) as [appsResult [e|]]; [exact I|].
  destruct (GetAppsByRoleResponse_Apps_Nodes appsResult) as [|first rest];
    [|exact I].
  destruct (gql_CreateApp r _ _) as [created [e|]]; [exact I|]. cbv zeta.
  match goal with
  | |- context [EnsureShipperMachine d r (Some ?a) ?t0] =>
      destruct (EnsureShipperMachine_never_panics a t0) as [err Herr];
      destruct (EnsureShipperMachine d r (Some a) t0) as [t3 o]
  end.
  simpl in Herr. subst o. destruct err; exact I.
Qed.

(** X12. [EnsureShipperApp] never panics, and it returns an app exactly when
    it returns a nil error: either a non-nil app with a nil error, or a nil
    app with a non-nil error.  A caller that has tested the error can
    dereference the app. *)
Theorem EnsureShipperApp_app_or_error (targetOrg : AppDataOrganization)
    (t : Trace AddOnType) :
  match snd (EnsureShipperApp d r targetOrg t) with
  | Returns (Some _, None) | Returns (None, Some _) => True
  | _ => False
  end.
Proof. apply EnsureShipperApp_app_or_error_aux. Qed.

(** X13. When the role-tag query fails, [EnsureShipperApp] returns a nil app
    and the query's error after that one call, whatever nodes came with the
    error: it creates no app. *)
Theorem EnsureShipperApp_query_failure (targetOrg : AppDataOrganization)
    (t : Trace AddOnType) (appsResult : GetAppsByRoleResponse) (e : error) :
  gql_GetAppsByRole r t "log-shipper" (AppDataOrganization_Id targetOrg) =
    (appsResult, Some e) ->
  EnsureShipperApp d r targetOrg t =
    (t ++ [EvGetAppsByRole "log-shipper" (AppDataOrganization_Id targetOrg)],
     Returns (None, Some e)).
Proof. intros H. rewrite EnsureShipperApp_run. cbv zeta. now rewrite H. Qed.

(** X14. When no app has the role and the creation fails,
    [EnsureShipperApp] returns a nil app and the creation's error; the run is
    the query and the creation, and no flaps call is made for the app that
    was not created. *)
Theorem EnsureShipperApp_creation_failure (targetOrg : AppDataOrganization)
    (t : Trace AddOnType) (createdAppResult : CreateAppResponse) (e : error) :
  let t1 :=
    t ++ [EvGetAppsByRole "log-shipper" (AppDataOrganization_Id targetOrg)] in
  let input :=
    {| CreateAppInput_Machines := true;
       CreateAppInput_OrganizationId := AppDataOrganization_Id targetOrg;
       CreateAppInput_AppRoleId := "log-shipper";
       CreateAppInput_Name :=
         AppDataOrganization_RawSlug targetOrg +:+ "-auto-log-shipper" |} in
  gql_GetAppsByRole r t "log-shipper" (AppDataOrganization_Id targetOrg) =
    ({| GetAppsByRoleResponse_Apps_Nodes := [] |}, None) ->
  gql_CreateApp r t1 input = (createdAppResult, Some e) ->
  EnsureShipperApp d r targetOrg t =
    (t1 ++ [EvCreateApp input], Returns (None, Some e)).
Proof.
  intros t1 input Hq Hc. subst t1 input.
  rewrite EnsureShipperApp_run. cbv zeta. rewrite Hq. cbn iota beta.
  cbn [GetAppsByRoleResponse_Apps_Nodes]. now rewrite Hc.
Qed.

(** X15. Every run of [EnsureShipperApp] queries the role exactly once and
    creates at most one app, whatever the remote side answers. *)
Theorem EnsureShipperApp_at_most_one_creation
    (targetOrg : AppDataOrganization) (t : Trace AddOnType) :
  let evs := new_events t (fst (EnsureShipperApp d r targetOrg t)) in
  count_events is_GetAppsByRole evs = 1%nat /\
  (count_events is_CreateApp evs <= 1)%nat.
Proof.
  intros evs. subst evs. rewrite EnsureShipperApp_run. cbv zeta.
  destruct (gql_GetAppsByRole r t _ _) as [appsResult [e|]].
  { cbn [fst]. rewrite new_events_app. unfold count_events. simpl. lia. }
  destruct (GetAppsByRoleResponse_Apps_Nodes appsResult) as [|first rest].
  2: { cbn [fst]. rewrite new_events_app. unfold count_events. simpl. lia. }
  destruct (gql_CreateApp r _ _) as [created [e|]].
  { cbn [fst]. rewrite <- app_assoc, new_events_app.
    unfold count_events. simpl. lia. }
  cbv zeta.
  match goal with
  | |- context [EnsureShipperMachine d r (Some ?a) ?t0] =>
      destruct (emits_EnsureShipperMachine a t0) as [evs [Hevs Hall]];
      destruct (EnsureShipperMachine d r (Some a) t0) as [t3 o]
  end.
  simpl in Hevs. subst t3.
  assert (Hnone :
    count_events is_GetAppsByRole evs = 0%nat /\
    count_events is_CreateApp evs = 0%nat).
  { clear -Hall. unfold count_events.
    induction Hall as [|ev evs Hev _ IH]; [split; reflexivity|].
    destruct ev; try contradiction; simpl; exact IH. }
  destruct Hnone as [Hq Hc].
  destruct o as [[e|]|]; cbn [fst];
    rewrite <- !app_assoc, new_events_app, !count_events_app, Hq, Hc;
    unfold count_events; simpl; lia.
Qed.

(** *** More on [SetNatsTokenSecret] *)

(** X16. When the token creation succeeds, the next call of
    [SetNatsTokenSecret] writes, on the shipper app's id, the single secret
    [NATS_TOKEN] whose value is the token just created; then it makes a
    restart-only deployment that skips health checks.  When making the
    deployment fails, that error is returned and nothing is deployed (the
    secret stays written); otherwise the result is what the deployment run
    returns. *)
Theorem SetNatsTokenSecret_writes_created_token
    (shipperApp : AppData) (t : Trace AddOnType)
    (tokenResponse : CreateLimitedAccessTokenResponse) :
  let name :=
    AppDataOrganization_Slug (AppData_Organization shipperApp) +:+ "-logs" in
  let organizationId :=
    AppDataOrganization_Id (AppData_Organization shipperApp) in
  let secrets :=
    {| SetSecretsInput_AppId := AppData_Id shipperApp;
       SetSecretsInput_Secrets :=
         [ {| SecretInput_Key := "NATS_TOKEN";
              SecretInput_Value :=
                CreateLimitedAccessTokenResponse_Token tokenResponse |} ] |} in
  let args :=
    {| MachineDeploymentArgs_AppCompact := ToAppCompact shipperApp;
       MachineDeploymentArgs_RestartOnly := true;
       MachineDeploymentArgs_SkipHealthChecks := true |} in
  let t2 :=
    t ++ [EvCreateLimitedAccessToken name organizationId
            "read_organization_apps" "" "";
          EvSetSecrets secrets] in
  gql_CreateLimitedAccessToken r t name organizationId
    "read_organization_apps" "" "" = (tokenResponse, None) ->
  SetNatsTokenSecret r (Some shipperApp) t =
    match deploy_NewMachineDeployment r t2 args with
    | Some e => (t2 ++ [EvNewMachineDeployment args], Returns (Some e))
    | None =>
        (t2 ++ [EvNewMachineDeployment args; EvDeployMachinesApp args],
         Returns
           (deploy_DeployMachinesApp r (t2 ++ [EvNewMachineDeployment args])
              args))
    end.
Proof.
  intros name organizationId secrets args t2 H.
  subst name organizationId secrets args t2.
  unfold SetNatsTokenSecret. run. rewrite H. simpl.
  rewrite <- !app_assoc. simpl.
  destruct (deploy_NewMachineDeployment r _ _) as [e|]; simpl;
    rewrite <- ?app_assoc; reflexivity.
Qed.

(** X17. When the token creation fails, [SetNatsTokenSecret] returns its
    error after that one call: no secret is written and nothing is
    deployed. *)
Theorem SetNatsTokenSecret_token_failure
    (shipperApp : AppData) (t : Trace AddOnType)
    (tokenResponse : CreateLimitedAccessTokenResponse) (e : error) :
  let name :=
    AppDataOrganization_Slug (AppData_Organization shipperApp) +:+ "-logs" in
  let organizationId :=
    AppDataOrganization_Id (AppData_Organization shipperApp) in
  gql_CreateLimitedAccessToken r t name organizationId
    "read_organization_apps" "" "" = (tokenResponse, Some e) ->
  SetNatsTokenSecret r (Some shipperApp) t =
    (t ++ [EvCreateLimitedAccessToken name organizationId
             "read_organization_apps" "" ""],
     Returns (Some e)).
Proof.
  intros name organizationId H. subst name organizationId.
  unfold SetNatsTokenSecret. run. now rewrite H.
Qed.

(** *** More on [runSetup] *)

Lemma EnsureShipperApp_result_shape (targetOrg : AppDataOrganization)
    (t : Trace AddOnType) :
  (exists app, snd (EnsureShipperApp d r targetOrg t) = Returns (Some app, None))
  \/ (exists e, snd (EnsureShipperApp d r targetOrg t) = Returns (None, Some e)).
Proof.
  pose proof (EnsureShipperApp_app_or_error_aux targetOrg t) as H.
  destruct (snd (EnsureShipperApp d r targetOrg t)) as [[[app|] [e|]]|];
    try contradiction; eauto.
Qed.

Lemma SetNatsTokenSecret_never_panics (shipperApp : AppData)
    (t : Trace AddOnType) :
  exists res, snd (SetNatsTokenSecret r (Some shipperApp) t) = Returns res.
Proof.
  unfold SetNatsTokenSecret. run.
  destruct (gql_CreateLimitedAccessToken r t _ _ _ _ _) as [tok [e|]]; simpl;
    [eauto|].
  destruct (deploy_NewMachineDeployment r _ _) as [e|]; simpl; eauto.
Qed.

Lemma ProvisionAutoShipper_never_panics (targetApp : AppData)
    (provider : string) (t : Trace AddOnType) :
  exists res, snd (ProvisionAutoShipper d r targetApp provider t) = Returns res.
Proof.
  rewrite ProvisionAutoShipper_run. cbv zeta.
  destruct (gql_GetAddOn r t _) as [resp [err|]]; [|simpl; eauto].
  destruct (chain_has_List err); simpl; eauto.
Qed.

(** [runSetup] from the prompt's answer on: the add-on step for an automatic
    provider, whose results are dropped, then the three steps on the shipper
    app. *)
Lemma runSetup_after_prompt
    (ctx : context_Context) (t : Trace AddOnType)
    (appNameResponse : GetAppResponse) (providerIndex : Z)
    (provider : Provider) :
  let appName := appconfig_NameFromContext ctx in
  let targetApp := GetAppResponse_App_AppData appNameResponse in
  let t1 := t ++ [EvGetApp appName] in
  let t2 :=
    t ++ [EvGetApp appName;
          EvSelect "Select a logging provider:" ""
            (map Provider_Name providers)] in
  let t3 :=
    if Provider_Auto provider
    then fst (ProvisionAutoShipper d r targetApp (Provider_Slug provider) t2)
    else t2 in
  gql_GetApp r t appName = (appNameResponse, None) ->
  prompt_Select r t1 "Select a logging provider:" ""
    (map Provider_Name providers) = (providerIndex, None) ->
  0 <= providerIndex ->
  providers !! Z.to_nat providerIndex = Some provider ->
  runSetup d r ctx t =
    match EnsureShipperApp d r (AppData_Organization targetApp) t3 with
    | (tA, Returns (_, Some e)) => (tA, Returns (Some e))
    | (tA, Returns (shipperApp, None)) =>
        match EnsureShipperMachine d r shipperApp tA with
        | (tM, Returns err) =>
            match SetNatsTokenSecret r shipperApp tM with
            | (tS, Returns _) => (tS, Returns err)
            | (tS, Panics) => (tS, Panics)
            end
        | (tM, Panics) => (tM, Panics)
        end
    | (tA, Panics) => (tA, Panics)
    end.
Proof.
  intros appName targetApp t1 t2 t3 Happ Hsel Hge Hidx.
  subst appName targetApp t1 t2 t3.
  unfold runSetup. cbv zeta. cbv iota.
  unfold bind at 1. unfold call at 1. rewrite Happ. cbv beta iota.
  unfold bind at 1. unfold call at 1. rewrite Hsel. cbv beta iota.
  unfold index. apply Z.leb_le in Hge. rewrite Hge. rewrite Hidx.
  unfold bind at 1. unfold ret at 1. cbv beta iota.
  rewrite <- !app_assoc. simpl app.
  unfold bind at 1.
  destruct (Provider_Auto provider).
  - unfold bind at 1. unfold ret at 1. unfold bind at 1.
    destruct (ProvisionAutoShipper_never_panics
                (GetAppResponse_App_AppData appNameResponse)
                (Provider_Slug provider)
                (t ++ [EvGetApp (appconfig_NameFromContext ctx);
                       EvSelect "Select a logging provider:" ""
                         (map Provider_Name providers)])) as [res Hres].
    destruct (ProvisionAutoShipper d r _ _ _) as [t3 o].
    simpl in Hres. subst o. unfold ret at 1. cbn [fst]. cbv beta iota.
    unfold bind at 1.
    destruct (EnsureShipperApp d r _ t3) as [tA [[shipperApp [e|]]|]];
      [reflexivity | | reflexivity].
    unfold bind at 1.
    destruct (EnsureShipperMachine d r shipperApp tA) as [tM [err|]];
      [|reflexivity].
    unfold bind at 1.
    destruct (SetNatsTokenSecret r shipperApp tM) as [tS [res'|]]; reflexivity.
  - unfold ret at 1. cbv beta iota. unfold bind at 1.
    destruct (EnsureShipperApp d r _ _) as [tA [[shipperApp [e|]]|]];
      [reflexivity | | reflexivity].
    unfold bind at 1.
    destruct (EnsureShipperMachine d r shipperApp tA) as [tM [err|]];
      [|reflexivity].
    unfold bind at 1.
    destruct (SetNatsTokenSecret r shipperApp tM) as [tS [res'|]]; reflexivity.
Qed.

Lemma providers_lookup_None (n : nat) :
  providers !! n = None <-> (15 <= n)%nat.
Proof. rewrite lookup_ge_None. reflexivity. Qed.

Lemma count_events_none {T : Type} (p : Event T -> bool) (evs : Trace T) :
  Forall (fun ev => p ev = false) evs -> count_events p evs = 0%nat.
Proof.
  unfold count_events. induction 1 as [|ev evs Hev _ IH]; simpl;
    [reflexivity|]. now rewrite Hev.
Qed.

Lemma runSetup_app_lookup_failure_aux (ctx : context_Context)
    (t : Trace AddOnType) (appNameResponse : GetAppResponse) (e : error) :
  gql_GetApp r t (appconfig_NameFromContext ctx) = (appNameResponse, Some e) ->
  snd (runSetup d r ctx t) = Returns (Some e).
Proof. intros H. unfold runSetup. run. now rewrite H. Qed.

Lemma runSetup_prompt_failure_aux (ctx : context_Context) (t : Trace AddOnType)
    (appNameResponse : GetAppResponse) (providerIndex : Z) (e : error) :
  gql_GetApp r t (appconfig_NameFromContext ctx) = (appNameResponse, None) ->
  prompt_Select r (t ++ [EvGetApp (appconfig_NameFromContext ctx)])
    "Select a logging provider:" "" (map Provider_Name providers) =
    (providerIndex, Some e) ->
  snd (runSetup d r ctx t) = Returns (Some e).
Proof.
  intros Happ Hsel. unfold runSetup. cbv zeta. cbv iota.
  unfold bind at 1. unfold call at 1. rewrite Happ. cbv beta iota.
  unfold bind at 1. unfold call at 1. rewrite Hsel. reflexivity.
Qed.

(** X18. When the lookup of the app fails, [runSetup] returns that error
    after this one call: nothing is prompted and nothing is provisioned. *)
Theorem runSetup_app_lookup_failure (ctx : context_Context)
    (t : Trace AddOnType) (appNameResponse : GetAppResponse) (e : error) :
  gql_GetApp r t (appconfig_NameFromContext ctx) = (appNameResponse, Some e) ->
  runSetup d r ctx t =
    (t ++ [EvGetApp (appconfig_NameFromContext ctx)], Returns (Some e)).
Proof. intros H. unfold runSetup. run. now rewrite H. Qed.

(** X19. When the prompt fails (it is cancelled, say), [runSetup] returns
    that error right after it, whatever index the prompt left behind, also
    one out of range: the table is not indexed and nothing is provisioned. *)
Theorem runSetup_prompt_failure (ctx : context_Context) (t : Trace AddOnType)
    (appNameResponse : GetAppResponse) (providerIndex : Z) (e : error) :
  let appName := appconfig_NameFromContext ctx in
  gql_GetApp r t appName = (appNameResponse, None) ->
  prompt_Select r (t ++ [EvGetApp appName]) "Select a logging provider:" ""
    (map Provider_Name providers) = (providerIndex, Some e) ->
  runSetup d r ctx t =
    (t ++ [EvGetApp appName;
           EvSelect "Select a logging provider:" ""
             (map Provider_Name providers)],
     Returns (Some e)).
Proof.
  intros appName Happ Hsel. subst appName.
  unfold runSetup. cbv zeta. cbv iota.
  unfold bind at 1. unfold call at 1. rewrite Happ. cbv beta iota.
  unfold bind at 1. unfold call at 1. rewrite Hsel. cbv beta iota.
  unfold ret. now rewrite <- app_assoc.
Qed.

(** X20. When the prompt succeeds with an index outside the table (negative,
    or 15 and more), [runSetup] panics on [providers[providerIndex]] right
    after the prompt, before anything is provisioned. *)
Theorem runSetup_index_out_of_range (ctx : context_Context)
    (t : Trace AddOnType) (appNameResponse : GetAppResponse)
    (providerIndex : Z) :
  let appName := appconfig_NameFromContext ctx in
  gql_GetApp r t appName = (appNameResponse, None) ->
  prompt_Select r (t ++ [EvGetApp appName]) "Select a logging provider:" ""
    (map Provider_Name providers) = (providerIndex, None) ->
  providerIndex < 0 \/ 15 <= providerIndex ->
  runSetup d r ctx t =
    (t ++ [EvGetApp appName;
           EvSelect "Select a logging provider:" ""
             (map Provider_Name providers)],
     Panics).
Proof.
  intros appName Happ Hsel Hrange. subst appName.
  unfold runSetup. cbv zeta. cbv iota.
  unfold bind at 1. unfold call at 1. rewrite Happ. cbv beta iota.
  unfold bind at 1. unfold call at 1. rewrite Hsel. cbv beta iota.
  unfold index. unfold bind at 1.
  destruct (0 <=? providerIndex) eqn:Hge.
  - apply Z.leb_le in Hge.
    assert (Hnone : providers !! Z.to_nat providerIndex = None).
    { apply providers_lookup_None. lia. }
    rewrite Hnone. unfold panic. now rewrite <- app_assoc.
  - unfold panic. now rewrite <- app_assoc.
Qed.

(** X21. That is the only way [runSetup] panics: when a run panics, the app
    lookup and the prompt had succeeded and the prompt's index was outside
    the table.  No nil app is ever dereferenced. *)
Theorem runSetup_panics_only_out_of_range (ctx : context_Context)
    (t : Trace AddOnType) :
  snd (runSetup d r ctx t) = Panics ->
  exists appNameResponse providerIndex,
    gql_GetApp r t (appconfig_NameFromContext ctx) = (appNameResponse, None) /\
    prompt_Select r (t ++ [EvGetApp (appconfig_NameFromContext ctx)])
      "Select a logging provider:" "" (map Provider_Name providers) =
      (providerIndex, None) /\
    (providerIndex < 0 \/ 15 <= providerIndex).
Proof.
  intros Hpanic.
  destruct (gql_GetApp r t (appconfig_NameFromContext ctx))
    as [appNameResponse [e|]] eqn:Happ.
  { rewrite (runSetup_app_lookup_failure_aux ctx t _ _ Happ) in Hpanic.
    discriminate Hpanic. }
  destruct (prompt_Select r (t ++ [EvGetApp (appconfig_NameFromContext ctx)])
              "Select a logging provider:" "" (map Provider_Name providers))
    as [providerIndex [e|]] eqn:Hsel.
  { rewrite (runSetup_prompt_failure_aux ctx t _ _ _ Happ Hsel) in Hpanic.
    discriminate Hpanic. }
  exists appNameResponse, providerIndex. split; [reflexivity|].
  split; [reflexivity|].
  destruct (Z.lt_ge_cases providerIndex 0) as [Hneg|Hge]; [now left|].
  destruct (providers !! Z.to_nat providerIndex) as [provider|] eqn:Hidx.
  2: { apply providers_lookup_None in Hidx. right. lia. }
  exfalso.
  rewrite (runSetup_after_prompt ctx t _ _ _ Happ Hsel Hge Hidx) in Hpanic.
  cbv zeta in Hpanic.
  match type of Hpanic with
  | context [EnsureShipperApp d r ?o ?t3] =>
      destruct (EnsureShipperApp_result_shape o t3) as [[app Hres]|[e Hres]];
      destruct (EnsureShipperApp d r o t3) as [tA res]
  end; simpl in Hres; subst res.
  - destruct (EnsureShipperMachine_never_panics app tA) as [err Herr].
    destruct (EnsureShipperMachine d r (Some app) tA) as [tM o].
    simpl in Herr. subst o.
    destruct (SetNatsTokenSecret_never_panics app tM) as [res Hres].
    destruct (SetNatsTokenSecret r (Some app) tM) as [tS o].
    simpl in Hres. subst o. discriminate Hpanic.
  - discriminate Hpanic.
Qed.

(** X22. When [EnsureShipperApp] fails, [runSetup] returns its error and the
    run ends where [EnsureShipperApp] ended: no machine is looked for, no
    token is created, nothing is deployed. *)
Theorem runSetup_app_step_failure
    (ctx : context_Context) (t tA : Trace AddOnType)
    (appNameResponse : GetAppResponse) (providerIndex : Z)
    (provider : Provider) (shipperApp : option AppData) (e : error) :
  let appName := appconfig_NameFromContext ctx in
  let targetApp := GetAppResponse_App_AppData appNameResponse in
  let t2 :=
    t ++ [EvGetApp appName;
          EvSelect "Select a logging provider:" ""
            (map Provider_Name providers)] in
  let t3 :=
    if Provider_Auto provider
    then fst (ProvisionAutoShipper d r targetApp (Provider_Slug provider) t2)
    else t2 in
  gql_GetApp r t appName = (appNameResponse, None) ->
  prompt_Select r (t ++ [EvGetApp appName]) "Select a logging provider:" ""
    (map Provider_Name providers) = (providerIndex, None) ->
  0 <= providerIndex ->
  providers !! Z.to_nat providerIndex = Some provider ->
  EnsureShipperApp d r (AppData_Organization targetApp) t3 =
    (tA, Returns (shipperApp, Some e)) ->
  runSetup d r ctx t = (tA, Returns (Some e)).
Proof.
  intros appName targetApp t2 t3 Happ Hsel Hge Hidx HA.
  subst appName targetApp t2 t3.
  rewrite (runSetup_after_prompt ctx t _ _ _ Happ Hsel Hge Hidx).
  cbv zeta. now rewrite HA.
Qed.

(** X23. For a provider without [Auto] (every one but [logtail]),
    [runSetup] makes no add-on call at all, neither lookup nor creation:
    after the prompt it goes straight to the shipper app. *)
Theorem runSetup_manual_provider_no_addon
    (ctx : context_Context) (t : Trace AddOnType)
    (appNameResponse : GetAppResponse) (providerIndex : Z)
    (provider : Provider) :
  let appName := appconfig_NameFromContext ctx in
  let evs := new_events t (fst (runSetup d r ctx t)) in
  gql_GetApp r t appName = (appNameResponse, None) ->
  prompt_Select r (t ++ [EvGetApp appName]) "Select a logging provider:" ""
    (map Provider_Name providers) = (providerIndex, None) ->
  0 <= providerIndex ->
  providers !! Z.to_nat providerIndex = Some provider ->
  Provider_Auto provider = false ->
  count_events is_GetAddOn evs = 0%nat /\
  count_events is_CreateAddOn evs = 0%nat /\
  evs !! 2%nat =
    Some (EvGetAppsByRole "log-shipper"
            (AppDataOrganization_Id
               (AppData_Organization
                  (GetAppResponse_App_AppData appNameResponse)))).
Proof.
  intros appName evs Happ Hsel Hge Hidx Hauto. subst appName evs.
  rewrite (runSetup_after_prompt ctx t _ _ _ Happ Hsel Hge Hidx).
  cbv zeta. rewrite Hauto.
  set (org := AppData_Organization (GetAppResponse_App_AppData appNameResponse)).
  set (t2 := t ++ [EvGetApp (appconfig_NameFromContext ctx);
                   EvSelect "Select a logging provider:" ""
                     (map Provider_Name providers)]).
  assert (Hrest : exists evs,
    fst (match EnsureShipperApp d r org t2 with
         | (tA, Returns (_, Some e)) => (tA, Returns (Some e))
         | (tA, Returns (shipperApp, None)) =>
             match EnsureShipperMachine d r shipperApp tA with
             | (tM, Returns err) =>
                 match SetNatsTokenSecret r shipperApp tM with
                 | (tS, Returns _) => (tS, Returns err)
                 | (tS, Panics) => (tS, Panics)
                 end
             | (tM, Panics) => (tM, Panics)
             end
         | (tA, Panics) => (tA, Panics)
         end) =
      t2 ++ EvGetAppsByRole "log-shipper" (AppDataOrganization_Id org) :: evs /\
    Forall (fun ev => is_GetAddOn ev = false /\ is_CreateAddOn ev = false) evs).
  { rewrite EnsureShipperApp_run. cbv zeta.
    assert (Hm : forall app t0, exists evs,
      fst (EnsureShipperMachine d r (Some app) t0) = t0 ++ evs /\
      Forall (fun ev => is_GetAddOn ev = false /\ is_CreateAddOn ev = false)
        evs).
    { intros app t0.
      destruct (emits_EnsureShipperMachine app t0) as [evs [Hevs Hall]].
      exists evs. split; [exact Hevs|].
      eapply Forall_impl; [exact Hall|].
      intros ev Hev. destruct ev; try contradiction; now split. }
    assert (Hs : forall app t0, exists evs,
      fst (SetNatsTokenSecret r (Some app) t0) = t0 ++ evs /\
      Forall (fun ev => is_GetAddOn ev = false /\ is_CreateAddOn ev = false)
        evs).
    { intros app t0.
      destruct (emits_SetNatsTokenSecret app t0) as [evs [Hevs Hall]].
      exists evs. split; [exact Hevs|].
      eapply Forall_impl; [exact Hall|].
      intros ev Hev. destruct ev; try contradiction; now split. }
    assert (Hms : forall app t0, exists evs,
      fst (match EnsureShipperMachine d r (Some app) t0 with
           | (tM, Returns err) =>
               match SetNatsTokenSecret r (Some app) tM with
               | (tS, Returns _) => (tS, Returns err)
               | (tS, Panics) => (tS, Panics)
               end
           | (tM, Panics) => (tM, Panics)
           end) = t0 ++ evs /\
      Forall (fun ev => is_GetAddOn ev = false /\ is_CreateAddOn ev = false)
        evs).
    { intros app t0. destruct (Hm app t0) as [evs1 [H1 F1]].
      destruct (EnsureShipperMachine d r (Some app) t0) as [tM [err|]];
        simpl in H1; subst tM; [|eauto].
      destruct (Hs app (t0 ++ evs1)) as [evs2 [H2 F2]].
      destruct (SetNatsTokenSecret r (Some app) (t0 ++ evs1)) as [tS o].
      simpl in H2. subst tS. exists (evs1 ++ evs2).
      split; [destruct o; simpl; now rewrite app_assoc|].
      apply Forall_app. now split. }
    destruct (gql_GetAppsByRole r t2 _ _) as [appsResult [e|]].
    { exists []. split; [reflexivity | constructor]. }
    destruct (GetAppsByRoleResponse_Apps_Nodes appsResult) as [|first rest].
    2: { destruct (Hms first
                     (t2 ++ [EvGetAppsByRole "log-shipper"
                               (AppDataOrganization_Id org)]))
           as [evs [H F]].
         exists evs. split; [|exact F].
         rewrite H. now rewrite <- app_assoc. }
    destruct (gql_CreateApp r _ _) as [created [e|]].
    { eexists. split; [cbn [fst]; rewrite <- app_assoc; reflexivity|].
      repeat constructor. }
    cbv zeta.
    match goal with
    | |- context [EnsureShipperMachine d r (Some ?a) ?t0] =>
        destruct (Hm a t0) as [evs1 [H1 F1]];
        destruct (EnsureShipperMachine_never_panics a t0) as [err Herr];
        destruct (EnsureShipperMachine d r (Some a) t0) as [t3 o]
    end.
    simpl in H1, Herr. subst t3 o.
    destruct err as [e|].
    { eexists. split; [cbn [fst]; rewrite <- !app_assoc; reflexivity|].
      constructor; [now split | exact F1]. }
    match goal with
    | |- context [EnsureShipperMachine d r (Some ?a) ?t0] =>
        destruct (Hms a t0) as [evs2 [H2 F2]]
    end.
    eexists. split.
    { rewrite H2. rewrite <- !app_assoc. reflexivity. }
    constructor; [now split|]. apply Forall_app. now split. }
  destruct Hrest as [evs [Hevs Hall]].
  rewrite Hevs. subst t2. rewrite <- app_assoc, new_events_app.
  split; [|split].
  - simpl. unfold count_events. simpl. apply count_events_none.
    eapply Forall_impl; [exact Hall|]. now intros ev [H _].
  - simpl. unfold count_events. simpl. apply count_events_none.
    eapply Forall_impl; [exact Hall|]. now intros ev [_ H].
  - reflexivity.
Qed.

(** X24. [runSetup] drops what [ProvisionAutoShipper] returns: when the
    add-on step of an automatic provider ends with an error, the run goes on
    with the shipper app all the same, and when the three later steps
    succeed [runSetup] returns nil. *)
Theorem runSetup_ignores_addon_failure
    (ctx : context_Context) (t t3 tA tM tS : Trace AddOnType)
    (appNameResponse : GetAppResponse) (providerIndex : Z)
    (provider : Provider) (token : string) (e : error)
    (shipperApp : AppData) (res : option error) :
  let appName := appconfig_NameFromContext ctx in
  let targetApp := GetAppResponse_App_AppData appNameResponse in
  let t2 :=
    t ++ [EvGetApp appName;
          EvSelect "Select a logging provider:" ""
            (map Provider_Name providers)] in
  gql_GetApp r t appName = (appNameResponse, None) ->
  prompt_Select r (t ++ [EvGetApp appName]) "Select a logging provider:" ""
    (map Provider_Name providers) = (providerIndex, None) ->
  0 <= providerIndex ->
  providers !! Z.to_nat providerIndex = Some provider ->
  Provider_Auto provider = true ->
  ProvisionAutoShipper d r targetApp (Provider_Slug provider) t2 =
    (t3, Returns (token, Some e)) ->
  EnsureShipperApp d r (AppData_Organization targetApp) t3 =
    (tA, Returns (Some shipperApp, None)) ->
  EnsureShipperMachine d r (Some shipperApp) tA = (tM, Returns None) ->
  SetNatsTokenSecret r (Some shipperApp) tM = (tS, Returns res) ->
  runSetup d r ctx t = (tS, Returns None).
Proof.
  intros appName targetApp t2 Happ Hsel Hge Hidx Hauto HP HA HM HS.
  subst appName targetApp t2.
  rewrite (runSetup_after_prompt ctx t _ _ _ Happ Hsel Hge Hidx).
  cbv zeta. rewrite Hauto, HP. cbn [fst]. now rewrite HA, HM, HS.
Qed.

End MoreRuns.

(* ===================================================================== *)
(** ** [IsErrorNotFound] and the names *)
(* ===================================================================== *)

Lemma strings_HasPrefix_iff (s prefix : string) :
  strings_HasPrefix s prefix = true <-> exists rest, s = prefix +:+ rest.
Proof.
  revert s. induction prefix as [|c prefix IH]; intros s; simpl.
  - split; [intros _; now exists s | reflexivity].
  - destruct s as [|c' s]; simpl.
    + split; [discriminate | intros [rest H]; discriminate H].
    + destruct (Ascii.eqb_spec c c') as [->|Hne].
      * rewrite IH. split; intros [rest H]; exists rest.
        -- subst s. reflexivity.
        -- simpl in H. now injection H.
      * split; [discriminate|]. intros [rest H]. simpl in H.
        injection H as H _. now subst c'.
Qed.

Lemma strings_Contains_iff (s substr : string) :
  strings_Contains s substr = true <->
  exists before after, s = before +:+ substr +:+ after.
Proof.
  split.
  - induction s as [|c s IH]; simpl; intros H; apply orb_prop in H;
      destruct H as [H|H]; try discriminate H.
    + apply strings_HasPrefix_iff in H. destruct H as [rest H].
      now exists "", rest.
    + apply strings_HasPrefix_iff in H. destruct H as [rest H].
      now exists "", rest.
    + destruct (IH H) as [before [after Hs]].
      exists (String c before), after. rewrite Hs. reflexivity.
  - intros [before [after H]]. revert s H.
    induction before as [|c before IH]; intros s H; simpl in H.
    + assert (Hp : strings_HasPrefix s substr = true)
        by (apply strings_HasPrefix_iff; eauto).
      destruct s; simpl; now rewrite Hp.
    + subst s. simpl. rewrite (IH _ eq_refl). apply orb_true_r.
Qed.

(** X25. [IsErrorNotFound] answers true exactly for the errors whose text
    has ["not find"] somewhere in it (so "Could not find App" counts and
    "not found" alone does not); only the text of the error itself is read,
    not that of an error it wraps; and on a nil error the call panics. *)
Theorem IsErrorNotFound_iff
    (gqlerror_List_Error : list gqlerror_Error -> string) :
  (forall err : error,
     IsErrorNotFound gqlerror_List_Error (Some err) = Returns true <->
     exists before after,
       error_Error gqlerror_List_Error err = before +:+ "not find" +:+ after) /\
  (forall (msg : string) (inner : error),
     IsErrorNotFound gqlerror_List_Error (Some (wrapError msg inner)) =
     IsErrorNotFound gqlerror_List_Error (Some (errorString msg))) /\
  IsErrorNotFound gqlerror_List_Error None = Panics.
Proof.
  split; [|split; reflexivity].
  intros err. unfold IsErrorNotFound. rewrite <- strings_Contains_iff.
  split; [intros H; now injection H | intros ->; reflexivity].
Qed.

Lemma string_length_append (a b : string) :
  String.length (a +:+ b) = (String.length a + String.length b)%nat.
Proof. induction a as [|c a IH]; simpl; [reflexivity | now rewrite IH]. Qed.

Lemma string_append_cancel_r (a b x : string) : a +:+ x = b +:+ x -> a = b.
Proof.
  revert b. induction a as [|c a IH]; intros [|c' b] H; simpl in H.
  - reflexivity.
  - apply (f_equal String.length) in H.
    rewrite !string_length_append in H. simpl in H. lia.
  - apply (f_equal String.length) in H.
    rewrite !string_length_append in H. simpl in H. lia.
  - injection H as -> H. now rewrite (IH b H).
Qed.

(** X26. [LoggerAppName] is injective: two organizations with different raw
    slugs never get the same shipper app name. *)
Theorem LoggerAppName_injective (prefix1 prefix2 : string) :
  LoggerAppName prefix1 = LoggerAppName prefix2 -> prefix1 = prefix2.
Proof. unfold LoggerAppName. apply string_append_cancel_r. Qed.

Lemma LoggerAppName_injective_witness :
  LoggerAppName "acme" = LoggerAppName ("ac" +:+ "me") /\
  "acme" = "ac" +:+ "me".
Proof.
  split; [reflexivity|].
  apply (LoggerAppName_injective "acme" ("ac" +:+ "me")). reflexivity.
Defined.

(* ===================================================================== *)
(** ** The further properties on the scenarios *)
(* ===================================================================== *)

(** X4 on [acme] without an add-on: [logtail] is created. *)
Lemma ProvisionAutoShipper_creates_on_absence_witness :
  ProvisionAutoShipper Scenario.decls Scenario.fresh Scenario.web "logtail" [] =
    ([EvGetAddOn "web-log-shipper";
      EvOutput (PrintErrorType
                  (Some (wrapError "input:3: addOn"
                           (gqlerror_List ["Could not find AddOn"]))));
      EvOutput (PrintGqlError "Could not find AddOn");
      EvCreateAddOn
        {| CreateAddOnInput_OrganizationId := "org-1";
           CreateAddOnInput_Name := "web-log-shipper";
           CreateAddOnInput_AppId := "app-1";
           CreateAddOnInput_Type := "logtail" |}],
     Returns ("tok-new", None)).
Proof.
  apply (ProvisionAutoShipper_creates_on_absence string Scenario.decls
           Scenario.fresh Scenario.web "logtail" [] Scenario.no_addon
           (wrapError "input:3: addOn"
              (gqlerror_List ["Could not find AddOn"])));
    reflexivity.
Defined.

(** X5 when the remote side refuses the creation. *)
Lemma ProvisionAutoShipper_error_is_from_creation_witness :
  let remote :=
    Outage.failing is_CreateAddOn Outage.unavailable Scenario.fresh in
  let t1 : Trace string :=
    [EvGetAddOn "web-log-shipper";
     EvOutput (PrintErrorType
                 (Some (wrapError "input:3: addOn"
                          (gqlerror_List ["Could not find AddOn"]))));
     EvOutput (PrintGqlError "Could not find AddOn")] in
  let input :=
    {| CreateAddOnInput_OrganizationId := "org-1";
       CreateAddOnInput_Name := "web-log-shipper";
       CreateAddOnInput_AppId := "app-1";
       CreateAddOnInput_Type := "logtail" |} in
  ProvisionAutoShipper Scenario.decls remote Scenario.web "logtail" [] =
    (t1 ++ [EvCreateAddOn input], Returns ("", Some Outage.unavailable)) /\
  exists t1' input',
    t1 ++ [EvCreateAddOn input] = t1' ++ [EvCreateAddOn input'] /\
    snd (gql_CreateAddOn remote t1' input') = Some Outage.unavailable.
Proof.
  split; [reflexivity|].
  apply (ProvisionAutoShipper_error_is_from_creation string Scenario.decls
           (Outage.failing is_CreateAddOn Outage.unavailable Scenario.fresh)
           Scenario.web "logtail" [] _ "" Outage.unavailable).
  reflexivity.
Defined.

(** X8 on a shipper app without machines: one is launched in [ams]. *)
Lemma EnsureShipperMachine_success_means_machine_witness :
  let flapsClient := ToAppCompact Scenario.shipper in
  let t' :=
    fst (EnsureShipperMachine Scenario.decls Scenario.fresh
           (Some Scenario.shipper) []) in
  EnsureShipperMachine Scenario.decls Scenario.fresh (Some Scenario.shipper) []
    = (t', Returns None) /\
  ((exists machines,
      flaps_List Scenario.fresh ([] ++ [EvFlapsNew flapsClient]) flapsClient ""
        = (machines, None) /\
      (0 < length machines)%nat /\
      count_events is_FlapsLaunch (new_events [] t') = 0%nat) \/
   (exists t3 launchInput region,
      flaps_List Scenario.fresh ([] ++ [EvFlapsNew flapsClient]) flapsClient ""
        = ([], None) /\
      t' = t3 ++ [EvFlapsLaunch flapsClient launchInput;
                  EvOutput (PrintLaunched "acme-auto-log-shipper" region)] /\
      LaunchMachineInput_Region launchInput = region /\
      snd (flaps_Launch Scenario.fresh t3 flapsClient launchInput) = None)).
Proof.
  split; [reflexivity|].
  apply (EnsureShipperMachine_success_means_machine string Scenario.decls
           Scenario.fresh Scenario.shipper []).
  reflexivity.
Defined.

(** X9 when region discovery is down. *)
Lemma EnsureShipperMachine_region_failure_witness :
  EnsureShipperMachine Scenario.decls
    (Outage.failing is_GetNearestRegion Outage.unavailable Scenario.fresh)
    (Some Scenario.shipper) [] =
    ([EvFlapsNew (ToAppCompact Scenario.shipper);
      EvFlapsList (ToAppCompact Scenario.shipper) "";
      EvGetNearestRegion],
     Returns (Some Outage.unavailable)).
Proof.
  apply (EnsureShipperMachine_region_failure string Scenario.decls
           (Outage.failing is_GetNearestRegion Outage.unavailable
              Scenario.fresh)
           Scenario.shipper []
           {| GetNearestRegionResponse_NearestRegion_Code := "ams" |}
           Outage.unavailable);
    reflexivity.
Defined.

(** X10 when the listing answers with the machine [m-1] and an error. *)
Lemma EnsureShipperMachine_listing_failure_witness :
  flaps_List
    (Outage.failing is_FlapsList Outage.unavailable Scenario.provisioned)
    [EvFlapsNew (ToAppCompact Scenario.shipper)]
    (ToAppCompact Scenario.shipper) "" =
    ([ {| Machine_ID := "m-1" |} ], Some Outage.unavailable) /\
  EnsureShipperMachine Scenario.decls
    (Outage.failing is_FlapsList Outage.unavailable Scenario.provisioned)
    (Some Scenario.shipper) [] =
    ([EvFlapsNew (ToAppCompact Scenario.shipper);
      EvFlapsList (ToAppCompact Scenario.shipper) ""],
     Returns (Some Outage.unavailable)).
Proof.
  split; [reflexivity|].
  apply (EnsureShipperMachine_listing_failure string Scenario.decls
           (Outage.failing is_FlapsList Outage.unavailable
              Scenario.provisioned)
           Scenario.shipper [] [ {| Machine_ID := "m-1" |} ]
           Outage.unavailable);
    reflexivity.
Defined.

(** X13 when the role-tag query answers with the shipper app and an error. *)
Lemma EnsureShipperApp_query_failure_witness :
  gql_GetAppsByRole
    (Outage.failing is_GetAppsByRole Outage.unavailable Scenario.provisioned)
    [] "log-shipper" "org-1" =
    ({| GetAppsByRoleResponse_Apps_Nodes := [Scenario.shipper] |},
     Some Outage.unavailable) /\
  EnsureShipperApp Scenario.decls
    (Outage.failing is_GetAppsByRole Outage.unavailable Scenario.provisioned)
    Scenario.acme [] =
    ([EvGetAppsByRole "log-shipper" "org-1"],
     Returns (None, Some Outage.unavailable)).
Proof.
  split; [reflexivity|].
  apply (EnsureShipperApp_query_failure string Scenario.decls
           (Outage.failing is_GetAppsByRole Outage.unavailable
              Scenario.provisioned)
           Scenario.acme []
           {| GetAppsByRoleResponse_Apps_Nodes := [Scenario.shipper] |}
           Outage.unavailable).
  reflexivity.
Defined.

(** X14 when the creation of the shipper app is refused. *)
Lemma EnsureShipperApp_creation_failure_witness :
  EnsureShipperApp Scenario.decls
    (Outage.failing is_CreateApp Outage.unavailable Scenario.fresh)
    Scenario.acme [] =
    ([EvGetAppsByRole "log-shipper" "org-1";
      EvCreateApp
        {| CreateAppInput_Machines := true;
           CreateAppInput_OrganizationId := "org-1";
           CreateAppInput_AppRoleId := "log-shipper";
           CreateAppInput_Name := "acme-auto-log-shipper" |}],
     Returns (None, Some Outage.unavailable)).
Proof.
  apply (EnsureShipperApp_creation_failure string Scenario.decls
           (Outage.failing is_CreateApp Outage.unavailable Scenario.fresh)
           Scenario.acme []
           {| CreateAppResponse_CreateApp_App_AppData := Scenario.shipper |}
           Outage.unavailable);
    reflexivity.
Defined.

(** X16 on the shipper app of [acme]: the token [nats-1] is what is
    written. *)
Lemma SetNatsTokenSecret_writes_created_token_witness :
  let args :=
    {| MachineDeploymentArgs_AppCompact := ToAppCompact Scenario.shipper;
       MachineDeploymentArgs_RestartOnly := true;
       MachineDeploymentArgs_SkipHealthChecks := true |} in
  SetNatsTokenSecret Scenario.provisioned (Some Scenario.shipper) [] =
    ([EvCreateLimitedAccessToken "acme-logs" "org-1" "read_organization_apps"
        "" "";
      EvSetSecrets
        {| SetSecretsInput_AppId := "app-2";
           SetSecretsInput_Secrets :=
             [ {| SecretInput_Key := "NATS_TOKEN";
                  SecretInput_Value := "nats-1" |} ] |};
      EvNewMachineDeployment args;
      EvDeployMachinesApp args],
     Returns None).
Proof.
  apply (SetNatsTokenSecret_writes_created_token string Scenario.provisioned
           Scenario.shipper []
           {| CreateLimitedAccessTokenResponse_Token := "nats-1" |}).
  reflexivity.
Defined.

(** X17 when no token can be created. *)
Lemma SetNatsTokenSecret_token_failure_witness :
  SetNatsTokenSecret
    (Outage.failing is_CreateLimitedAccessToken Outage.unavailable
       Scenario.provisioned)
    (Some Scenario.shipper) [] =
    ([EvCreateLimitedAccessToken "acme-logs" "org-1" "read_organization_apps"
        "" ""],
     Returns (Some Outage.unavailable)).
Proof.
  apply (SetNatsTokenSecret_token_failure string
           (Outage.failing is_CreateLimitedAccessToken Outage.unavailable
              Scenario.provisioned)
           Scenario.shipper []
           {| CreateLimitedAccessTokenResponse_Token := "nats-1" |}
           Outage.unavailable).
  reflexivity.
Defined.

(** X18 when the app [web] cannot be looked up. *)
Lemma runSetup_app_lookup_failure_witness :
  runSetup Scenario.decls
    (Outage.failing is_GetApp Outage.unavailable Scenario.provisioned)
    Scenario.ctx [] =
    ([EvGetApp "web"], Returns (Some Outage.unavailable)).
Proof.
  apply (runSetup_app_lookup_failure string Scenario.decls
           (Outage.failing is_GetApp Outage.unavailable Scenario.provisioned)
           Scenario.ctx [] {| GetAppResponse_App_AppData := Scenario.web |}
           Outage.unavailable).
  reflexivity.
Defined.

(** X19 when the prompt fails and leaves the index 99 behind. *)
Lemma runSetup_prompt_failure_witness :
  runSetup Scenario.decls
    (Outage.failing is_Select Outage.unavailable
       (Outage.choosing 99 Scenario.provisioned))
    Scenario.ctx [] =
    ([EvGetApp "web";
      EvSelect "Select a logging provider:" "" (map Provider_Name providers)],
     Returns (Some Outage.unavailable)).
Proof.
  apply (runSetup_prompt_failure string Scenario.decls
           (Outage.failing is_Select Outage.unavailable
              (Outage.choosing 99 Scenario.provisioned))
           Scenario.ctx [] {| GetAppResponse_App_AppData := Scenario.web |}
           99 Outage.unavailable);
    reflexivity.
Defined.

(** X20 when the prompt answers 15, one past the last provider. *)
Lemma runSetup_index_out_of_range_witness :
  runSetup Scenario.decls (Outage.choosing 15 Scenario.provisioned)
    Scenario.ctx [] =
    ([EvGetApp "web";
      EvSelect "Select a logging provider:" "" (map Provider_Name providers)],
     Panics).
Proof.
  apply (runSetup_index_out_of_range string Scenario.decls
           (Outage.choosing 15 Scenario.provisioned)
           Scenario.ctx [] {| GetAppResponse_App_AppData := Scenario.web |} 15);
    [reflexivity | reflexivity | right; lia].
Defined.

(** X21 when the prompt answers -1. *)
Lemma runSetup_panics_only_out_of_range_witness :
  snd (runSetup Scenario.decls (Outage.choosing (-1) Scenario.provisioned)
         Scenario.ctx []) = Panics /\
  exists appNameResponse providerIndex,
    gql_GetApp (Outage.choosing (-1) Scenario.provisioned) [] "web" =
      (appNameResponse, None) /\
    prompt_Select (Outage.choosing (-1) Scenario.provisioned)
      ([] ++ [EvGetApp "web"]) "Select a logging provider:" ""
      (map Provider_Name providers) = (providerIndex, None) /\
    (providerIndex < 0 \/ 15 <= providerIndex).
Proof.
  split; [reflexivity|].
  apply (runSetup_panics_only_out_of_range string Scenario.decls
           (Outage.choosing (-1) Scenario.provisioned) Scenario.ctx []).
  reflexivity.
Defined.

(** X22 when the role-tag query is down. *)
Lemma runSetup_app_step_failure_witness :
  runSetup Scenario.decls
    (Outage.failing is_GetAppsByRole Outage.unavailable Scenario.provisioned)
    Scenario.ctx [] =
    ([EvGetApp "web";
      EvSelect "Select a logging provider:" "" (map Provider_Name providers);
      EvGetAddOn "web-log-shipper";
      EvOutput (PrintErrorType None);
      EvOutput (PrintAlreadyProvisioned "acme");
      EvGetAppsByRole "log-shipper" "org-1"],
     Returns (Some Outage.unavailable)).
Proof.
  apply (runSetup_app_step_failure string Scenario.decls
           (Outage.failing is_GetAppsByRole Outage.unavailable
              Scenario.provisioned)
           Scenario.ctx [] _
           {| GetAppResponse_App_AppData := Scenario.web |}
           Scenario.logtail_index
           {| Provider_Slug := "logtail"; Provider_Name := "Logtail";
              Provider_Auto := true;
              Provider_RequriedVars := [];
              Provider_OptionalVars := [] |}
           None Outage.unavailable);
    try reflexivity.
  unfold Scenario.logtail_index. lia.
Defined.

(** X23 when the prompt answers 2, [datadog]. *)
Lemma runSetup_manual_provider_no_addon_witness :
  let evs :=
    new_events []
      (fst (runSetup Scenario.decls (Outage.choosing 2 Scenario.provisioned)
              Scenario.ctx [])) in
  providers !! 2%nat =
    Some {| Provider_Slug := "datadog"; Provider_Name := "Datadog";
            Provider_Auto := false;
            Provider_RequriedVars := ["DATADOG_API_KEY"];
            Provider_OptionalVars := ["DATADOG_SITE"] |} /\
  count_events is_GetAddOn evs = 0%nat /\
  count_events is_CreateAddOn evs = 0%nat /\
  evs !! 2%nat = Some (EvGetAppsByRole "log-shipper" "org-1").
Proof.
  split; [reflexivity|].
  apply (runSetup_manual_provider_no_addon string Scenario.decls
           (Outage.choosing 2 Scenario.provisioned) Scenario.ctx []
           {| GetAppResponse_App_AppData := Scenario.web |} 2
           {| Provider_Slug := "datadog"; Provider_Name := "Datadog";
              Provider_Auto := false;
              Provider_RequriedVars := ["DATADOG_API_KEY"];
              Provider_OptionalVars := ["DATADOG_SITE"] |});
    try reflexivity.
  lia.
Defined.

(** X24 when the creation of the add-on is refused on a fresh [acme]. *)
Lemma runSetup_ignores_addon_failure_witness :
  let remote :=
    Outage.failing is_CreateAddOn Outage.unavailable Scenario.fresh in
  snd (ProvisionAutoShipper Scenario.decls remote Scenario.web "logtail"
         [EvGetApp "web";
          EvSelect "Select a logging provider:" ""
            (map Provider_Name providers)]) =
    Returns ("", Some Outage.unavailable) /\
  snd (runSetup Scenario.decls remote Scenario.ctx []) = Returns None.
Proof.
  split; [reflexivity|].
  set (remote :=
         Outage.failing is_CreateAddOn Outage.unavailable Scenario.fresh).
  set (t2 := [EvGetApp "web";
              EvSelect "Select a logging provider:" ""
                (map Provider_Name providers)] : Trace string).
  set (t3 := fst (ProvisionAutoShipper Scenario.decls remote Scenario.web
                    "logtail" t2)).
  set (tA := fst (EnsureShipperApp Scenario.decls remote Scenario.acme t3)).
  set (tM := fst (EnsureShipperMachine Scenario.decls remote
                    (Some Scenario.shipper) tA)).
  set (tS := fst (SetNatsTokenSecret remote (Some Scenario.shipper) tM)).
  rewrite (runSetup_ignores_addon_failure string Scenario.decls remote
             Scenario.ctx [] t3 tA tM tS
             {| GetAppResponse_App_AppData := Scenario.web |}
             Scenario.logtail_index
             {| Provider_Slug := "logtail"; Provider_Name := "Logtail";
                Provider_Auto := true;
                Provider_RequriedVars := [];
                Provider_OptionalVars := [] |}
             "" Outage.unavailable Scenario.shipper None);
    try reflexivity.
  unfold Scenario.logtail_index. lia.
Defined.
